(** * pancake-robot: accelerometer fusion core and DRV8833 motor control

    A shallow embedding of [code/asincroAccel.py], [code/externalAccel.py]
    and [code/motorContol.py].  Python floats are IEEE-754 binary floats
    ([spec_float] with the operations of [SpecFloat]); the hardware the
    scripts talk to (pyb.Accel, the I2C bus, the LED, the two PWM channels,
    the console) is an explicit [World] threaded through every call. *)

From Stdlib Require Import ZArith Lia List String Bool.
From Stdlib Require Import Floats.SpecFloat.
Import ListNotations.
Local Open Scope Z_scope.

(* ===================================================================== *)
(** * Python values *)
(* ===================================================================== *)

Module Py.

(** MicroPython is built with single or with double precision floats
    (MICROPY_FLOAT_IMPL_FLOAT / MICROPY_FLOAT_IMPL_DOUBLE). *)
Variant float_impl := FloatSingle | FloatDouble.

Definition prec (fi : float_impl) : Z :=
  match fi with FloatSingle => 24 | FloatDouble => 53 end.

Definition emax (fi : float_impl) : Z :=
  match fi with FloatSingle => 128 | FloatDouble => 1024 end.

(** The float [m * 2^e], rounded to nearest even. *)
Definition fmake (fi : float_impl) (m e : Z) : spec_float :=
  binary_normalize (prec fi) (emax fi) m e false.

(** A Python number: the scripts mix [int] readings (raw counts, the
    zeros of the fallback tuple) with [float] ones. *)
Inductive num :=
| PyInt (z : Z)
| PyFloat (f : spec_float).

(** Implicit int-to-float promotion of a binary operation. *)
Definition to_float (fi : float_impl) (n : num) : spec_float :=
  match n with
  | PyInt z => fmake fi z 0
  | PyFloat f => f
  end.

(** [n / d] for a float divisor [d]; every divisor in the scripts is a
    nonzero module constant, so ZeroDivisionError cannot be raised. *)
Definition truediv (fi : float_impl) (n : num) (d : spec_float) : spec_float :=
  SFdiv (prec fi) (emax fi) (to_float fi n) d.

Definition fdiv (fi : float_impl) (a d : spec_float) : spec_float :=
  SFdiv (prec fi) (emax fi) a d.

Definition fadd (fi : float_impl) (a b : spec_float) : spec_float :=
  SFadd (prec fi) (emax fi) a b.

(** The builtins [min(a, b)] and [max(a, b)]: the first argument is kept
    unless the second is strictly smaller (resp. greater). *)
Definition min (a b : spec_float) : spec_float :=
  if SFltb b a then b else a.

Definition max (a b : spec_float) : spec_float :=
  if SFltb a b then b else a.

(** Exceptions the scripts raise or catch. *)
Inductive exn :=
| OSError (msg : string)
| KeyboardInterrupt.

Definition str_exn (e : exn) : string :=
  match e with
  | OSError msg => msg
  | KeyboardInterrupt => EmptyString
  end.

End Py.

Import Py.

(* ===================================================================== *)
(** * The hardware world and the monad of blocking code *)
(* ===================================================================== *)

(** One answer of a device to one bus transaction: the data, or the
    message of the [OSError] the transaction raises. *)
Definition answer (A : Type) : Type := (string + A)%type.

Record World := mkWorld {
  accel_hw : list (answer (num * num * num)); (* pyb.Accel: future readings *)
  i2c_hw : list (answer (list Z));            (* I2C(1): future 14-byte frames *)
  accel_latency : Z;                          (* ms one pyb.Accel read blocks *)
  i2c_latency : Z;                            (* ms one I2C read blocks *)
  mpu_buffer : list Z;                        (* MPU6050._buffer *)
  led1 : bool;                                (* pyb.LED(1) *)
  led_log : list Z;                           (* ticks of every toggle, latest first *)
  stdout : list string;                       (* printed lines, latest first *)
  ticks_ms : Z                                (* the clock *)
}.

(** A device that has run out of scripted answers no longer acknowledges. *)
Definition ETIMEDOUT : exn := OSError "[Errno 110] ETIMEDOUT".

(** Blocking code: reads and writes the world, returns or raises. *)
Definition M (A : Type) : Type := World -> World * (exn + A).

Definition ret {A} (a : A) : M A := fun w => (w, inr a).

Definition raise {A} (e : exn) : M A := fun w => (w, inl e).

Definition bind {A B} (m : M A) (f : A -> M B) : M B :=
  fun w =>
    match m w with
    | (w', inl e) => (w', inl e)
    | (w', inr a) => f a w'
    end.

(** [try: m except OSError as e: h e]; anything else propagates. *)
Definition try_except_OSError {A} (m : M A) (h : exn -> M A) : M A :=
  fun w =>
    match m w with
    | (w', inl (OSError msg)) => h (OSError msg) w'
    | r => r
    end.

Declare Scope m_scope.
Delimit Scope m_scope with M.
Notation "x <- m ;; k" := (bind m (fun x => k))
  (at level 61, m at next level, right associativity) : m_scope.
Notation "m ;;; k" := (bind m (fun _ => k))
  (at level 61, right associativity) : m_scope.

Definition print (s : string) : M unit :=
  fun w =>
    (mkWorld (accel_hw w) (i2c_hw w) (accel_latency w) (i2c_latency w)
             (mpu_buffer w) (led1 w) (led_log w) (s :: stdout w) (ticks_ms w),
     inr tt).

(** [led.toggle()] *)
Definition led_toggle : M unit :=
  fun w =>
    (mkWorld (accel_hw w) (i2c_hw w) (accel_latency w) (i2c_latency w)
             (mpu_buffer w) (negb (led1 w)) (ticks_ms w :: led_log w)
             (stdout w) (ticks_ms w),
     inr tt).

(** One blocking read of the internal accelerometer ([accel_obj.xyz()] or
    [accel_obj.filtered_xyz()]): the next scripted answer, after the
    transaction's latency. *)
Definition accel_read : M (num * num * num) :=
  fun w =>
    let w' := mkWorld (tl (accel_hw w)) (i2c_hw w) (accel_latency w)
                      (i2c_latency w) (mpu_buffer w) (led1 w) (led_log w)
                      (stdout w) (ticks_ms w + accel_latency w) in
    match accel_hw w with
    | [] => (w', inl ETIMEDOUT)
    | inl msg :: _ => (w', inl (OSError msg))
    | inr xyz :: _ => (w', inr xyz)
    end.

(** The bytes of [frame] written over the start of [buf]. *)
Definition fill_buffer (buf frame : list Z) : list Z :=
  firstn (List.length buf) (frame ++ skipn (List.length frame) buf).

(** [i2c.readfrom_mem_into(addr, reg, self._buffer)] *)
Definition i2c_readfrom_mem_into (addr reg : Z) : M unit :=
  fun w =>
    let upd buf := mkWorld (accel_hw w) (tl (i2c_hw w)) (accel_latency w)
                           (i2c_latency w) buf (led1 w) (led_log w)
                           (stdout w) (ticks_ms w + i2c_latency w) in
    match i2c_hw w with
    | [] => (upd (mpu_buffer w), inl ETIMEDOUT)
    | inl msg :: _ => (upd (mpu_buffer w), inl (OSError msg))
    | inr frame :: _ => (upd (fill_buffer (mpu_buffer w) frame), inr tt)
    end.

Definition read_buffer : M (list Z) := fun w => (w, inr (mpu_buffer w)).

(* ===================================================================== *)
(** * code/motorContol.py *)
(* ===================================================================== *)

Module MotorContol.

(** The two PWM channels of timer 2 and every duty cycle written so far
    (channel, percent), latest first. *)
Record Motor := mkMotor {
  pwm_in1 : Z;
  pwm_in2 : Z;
  pwm_writes : list (Z * Z);
  console : list string
}.

Definition pwm_in1_pulse_percent (p : Z) (m : Motor) : Motor :=
  mkMotor p (pwm_in2 m) ((1, p) :: pwm_writes m) (console m).

Definition pwm_in2_pulse_percent (p : Z) (m : Motor) : Motor :=
  mkMotor (pwm_in1 m) p ((2, p) :: pwm_writes m) (console m).

Definition say (s : string) (m : Motor) : Motor :=
  mkMotor (pwm_in1 m) (pwm_in2 m) (pwm_writes m) (s :: console m).

(** The speed after the two clamping [if]s. *)
Definition clamp_speed (speed : Z) : Z :=
  let speed := if speed <? 0 then 0 else speed in
  if speed >? 100 then 100 else speed.

Definition motorControl (speed direction : Z) (m : Motor) : Motor :=
  let speed := clamp_speed speed in
  if direction =? 1 then
    pwm_in2_pulse_percent 0 (pwm_in1_pulse_percent speed m)
  else if direction =? -1 then
    pwm_in2_pulse_percent speed (pwm_in1_pulse_percent 0 m)
  else
    pwm_in2_pulse_percent 0 (pwm_in1_pulse_percent 0 m).

(** Module start-up: both channels are created and set to 0. *)
Definition boot : Motor :=
  say "Starting DRV8833 motor control test..."
      (pwm_in2_pulse_percent 0 (pwm_in1_pulse_percent 0 (mkMotor 0 0 [] []))).

(** The statements of the [while True] body; each [time.sleep] is a point
    where the operator's interrupt can arrive. *)
Inductive stmt :=
| Print (s : string)
| Drive (speed direction : Z)
| SleepS (seconds : Z).

Definition loop_body : list stmt :=
  [ Print "Running Forward (60%)"; Drive 60 1; SleepS 2;
    Print "Stopping (Brake)"; Drive 0 0; SleepS 1;
    Print "Running Reverse (90%)"; Drive 90 (-1); SleepS 2;
    Print "Stopping (Brake)"; Drive 0 0; SleepS 1 ].

Definition exec (s : stmt) (m : Motor) : Motor :=
  match s with
  | Print msg => say msg m
  | Drive speed direction => motorControl speed direction m
  | SleepS _ => m
  end.

(** The loop run for [n] statements, starting at statement [pc]. *)
Fixpoint run_loop (n : nat) (pc : nat) (m : Motor) : Motor :=
  match n with
  | O => m
  | S n' =>
      let pc := if Nat.ltb pc (List.length loop_body) then pc else O in
      run_loop n' (S pc) (exec (nth pc loop_body (SleepS 0)) m)
  end.

(** [except KeyboardInterrupt:] of the module. *)
Definition on_KeyboardInterrupt (m : Motor) : Motor :=
  say "Done." (motorControl 0 0 (say "Stopping motor." m)).

(** The whole script, interrupted after [n] statements of the loop. *)
Definition run_interrupted (n : nat) : Motor :=
  on_KeyboardInterrupt (run_loop n O boot).

End MotorContol.


(* ===================================================================== *)
(** * Coroutines *)
(* ===================================================================== *)

(** An [async def] body: it returns, raises, runs a piece of blocking code
    on the world, or suspends in [await uasyncio.sleep_ms(ms)] and hands
    control back to the scheduler. *)
Inductive coro (A : Type) : Type :=
| Ret (a : A)
| Throw (e : exn)
| Sleep (ms : Z) (k : coro A)
| Act (B : Type) (op : World -> World * B) (k : B -> coro A).

Arguments Ret {A} a.
Arguments Throw {A} e.
Arguments Sleep {A} ms k.
Arguments Act {A B} op k.

(** A synchronous call made from a coroutine: its exception is raised in
    the coroutine. *)
Definition call {A} (m : M A) : coro A :=
  Act m (fun r => match r with inl e => Throw e | inr a => Ret a end).

Definition sleep_ms (ms : Z) : coro unit := Sleep ms (Ret tt).

Fixpoint cbind {A B} (c : coro A) (f : A -> coro B) : coro B :=
  match c with
  | Ret a => f a
  | Throw e => Throw e
  | Sleep ms k => Sleep ms (cbind k f)
  | Act op k => Act op (fun r => cbind (k r) f)
  end.

Declare Scope coro_scope.
Delimit Scope coro_scope with coro.
Notation "x <- c ;; k" := (cbind c (fun x => k))
  (at level 61, c at next level, right associativity) : coro_scope.
Notation "c ;;; k" := (cbind c (fun _ => k))
  (at level 61, right associativity) : coro_scope.

(** [try: c except OSError as e: h e] around awaited code. *)
Fixpoint ctry_OSError {A} (c : coro A) (h : exn -> coro A) : coro A :=
  match c with
  | Ret a => Ret a
  | Throw (OSError msg) => h (OSError msg)
  | Throw e => Throw e
  | Sleep ms k => Sleep ms (ctry_OSError k h)
  | Act op k => Act op (fun r => ctry_OSError (k r) h)
  end.

(** What the scheduler sees when it resumes a task. *)
Inductive status (A : Type) : Type :=
| Done (a : A)
| Raised (e : exn)
| Suspended (ms : Z) (k : coro A).

Arguments Done {A} a.
Arguments Raised {A} e.
Arguments Suspended {A} ms k.

(** One scheduling quantum: the task runs, blocking everything else, until
    it suspends, returns or raises. *)
Fixpoint resume {A} (c : coro A) (w : World) : World * status A :=
  match c with
  | Ret a => (w, Done a)
  | Throw e => (w, Raised e)
  | Sleep ms k => (w, Suspended ms k)
  | Act op k => let (w', r) := op w in resume (k r) w'
  end.

(** The task driven to completion.  At its i-th suspension the scheduler
    runs whatever else is ready; [others] lists what that does to the
    world.  The result comes with the delays of the suspensions passed. *)
Fixpoint drive {A} (c : coro A) (others : list (World -> World)) (w : World)
  : World * list Z * (exn + A) :=
  match c with
  | Ret a => (w, [], inr a)
  | Throw e => (w, [], inl e)
  | Sleep ms k =>
      let '(w', ss, r) := drive k (tl others) (hd (fun w => w) others w) in
      (w', ms :: ss, r)
  | Act op k => let (w', r) := op w in drive (k r) others w'
  end.

(** ** uasyncio.gather(a, b)

    Both awaitables become tasks, [a] registered first, and take turns: a
    task runs until it suspends, then the other one does.  The caller gets
    both results once both tasks have returned.  When a task raises, the
    caller gets that exception as it is; the other task is neither awaited
    nor cancelled, so the quantum it was already queued for still runs
    ([abandon]) and its outcome is dropped. *)

Fixpoint abandon {X R} (c : coro X) (e : exn) : coro R :=
  match c with
  | Act op k => Act op (fun r => abandon (k r) e)
  | Ret _ | Throw _ | Sleep _ _ => Throw e
  end.

Fixpoint gather {A B} (a : coro A) : coro B -> coro (A * B) :=
  match a with
  | Ret x => fun b => cbind b (fun y => Ret (x, y))
  | Throw e => fun b => abandon b e
  | Act op k => fun b => Act op (fun r => gather (k r) b)
  | Sleep ms ka => fun b =>
      Sleep ms
        ((fix turn_b (b : coro B) : coro (A * B) :=
            match b with
            | Ret y => cbind ka (fun x => Ret (x, y))
            | Throw e => abandon ka e
            | Act op k => Act op (fun r => turn_b (k r))
            | Sleep ms' kb => Sleep ms' (gather ka kb)
            end) b)
  end.


(* ===================================================================== *)
(** * struct.unpack(">hhhhhhh", buf) *)
(* ===================================================================== *)

(** A big-endian signed 16-bit integer from its two bytes. *)
Definition be_int16 (hi lo : Z) : Z :=
  let u := Z.lor (Z.shiftl hi 8) lo in
  if u >=? 0x8000 then u - 0x10000 else u.

Definition unpack_h (buf : list Z) (i : nat) : Z :=
  be_int16 (nth (2 * i) buf 0) (nth (2 * i + 1) buf 0).

Definition unpack_7h (buf : list Z) : Z * Z * Z * Z * Z * Z * Z :=
  (unpack_h buf 0, unpack_h buf 1, unpack_h buf 2, unpack_h buf 3,
   unpack_h buf 4, unpack_h buf 5, unpack_h buf 6).

(** The dict of the external sensor and the dict of the internal one. *)
Module ExtDict.
Record t := mk {
  accel_x : num; accel_y : num; accel_z : num;
  gyro_x : num; gyro_y : num; gyro_z : num;
  temp_c : num
}.
End ExtDict.

Module IntDict.
Record t := mk {
  accel_x : num; accel_y : num; accel_z : num;
  units : string
}.
End IntDict.

(** A configured device object; [None] is Python's [None]. *)
Record MPU6050 := mkMPU6050 { addr : Z }.
Variant Accel := AccelObj.

Definition seven : Type := (num * num * num * num * num * num * num)%type.

(* ===================================================================== *)
(** * code/externalAccel.py *)
(* ===================================================================== *)

Module ExternalAccel.

Definition DEFAULT_ADDR : Z := 0x68.
Definition REG_ACCEL_X_H : Z := 0x3B.
Definition SCALE_ACCEL (fi : float_impl) : spec_float := fmake fi 16384 0.
Definition SCALE_GYRO (fi : float_impl) : spec_float := fmake fi 131 0.

Definition _read_signed_word (high_byte low_byte : Z) : Z :=
  let value := Z.lor (Z.shiftl high_byte 8) low_byte in
  if value >=? 0x8000 then value - 0x10000 else value.

Definition get_all_data_scaled (fi : float_impl) (self : MPU6050) : M seven :=
  try_except_OSError
    (i2c_readfrom_mem_into (addr self) REG_ACCEL_X_H ;;;
     buf <- read_buffer ;;
     let '(ax_raw, ay_raw, az_raw, temp_raw, gx_raw, gy_raw, gz_raw) :=
       unpack_7h buf in
     let ax := truediv fi (PyInt ax_raw) (SCALE_ACCEL fi) in
     let ay := truediv fi (PyInt ay_raw) (SCALE_ACCEL fi) in
     let az := truediv fi (PyInt az_raw) (SCALE_ACCEL fi) in
     let temp_c :=
       fadd fi (truediv fi (PyInt temp_raw) (fmake fi 340 0))
               (fdiv fi (fmake fi 3653 0) (fmake fi 100 0)) in
     let gx := truediv fi (PyInt gx_raw) (SCALE_GYRO fi) in
     let gy := truediv fi (PyInt gy_raw) (SCALE_GYRO fi) in
     let gz := truediv fi (PyInt gz_raw) (SCALE_GYRO fi) in
     ret (PyFloat ax, PyFloat ay, PyFloat az, PyFloat temp_c,
          PyFloat gx, PyFloat gy, PyFloat gz))%M
    (fun e =>
       (print ("I2C Error reading sensor: " ++ str_exn e) ;;;
        ret (PyInt 0, PyInt 0, PyInt 0, PyInt 0, PyInt 0, PyInt 0, PyInt 0))%M).

Definition externalAcelerometers (fi : float_impl)
    (sensor_device : option MPU6050) : M (option ExtDict.t) :=
  match sensor_device with
  | None =>
      (print "Error: Sensor device is not initialized." ;;; ret None)%M
  | Some dev =>
      (data <- get_all_data_scaled fi dev ;;
       let '(ax, ay, az, temp_c, gx, gy, gz) := data in
       ret (Some (ExtDict.mk ax ay az gx gy gz temp_c)))%M
  end.

End ExternalAccel.


(* ===================================================================== *)
(** * code/asincroAccel.py *)
(* ===================================================================== *)

Module AsincroAccel.

Definition DEFAULT_ADDR : Z := 0x68.
Definition REG_ACCEL_X_H : Z := 0x3B.
Definition SCALE_ACCEL (fi : float_impl) : spec_float := fmake fi 16384 0.
Definition SCALE_GYRO (fi : float_impl) : spec_float := fmake fi 131 0.

(** ** 1. MPU-6050 driver *)

Definition get_all_data_scaled (fi : float_impl) (self : MPU6050) : M seven :=
  try_except_OSError
    (i2c_readfrom_mem_into (addr self) REG_ACCEL_X_H ;;;
     buf <- read_buffer ;;
     let '(ax_r, ay_r, az_r, t_r, gx_r, gy_r, gz_r) := unpack_7h buf in
     let ax := truediv fi (PyInt ax_r) (SCALE_ACCEL fi) in
     let ay := truediv fi (PyInt ay_r) (SCALE_ACCEL fi) in
     let az := truediv fi (PyInt az_r) (SCALE_ACCEL fi) in
     let temp_c :=
       fadd fi (truediv fi (PyInt t_r) (fmake fi 340 0))
               (fdiv fi (fmake fi 3653 0) (fmake fi 100 0)) in
     let gx := truediv fi (PyInt gx_r) (SCALE_GYRO fi) in
     let gy := truediv fi (PyInt gy_r) (SCALE_GYRO fi) in
     let gz := truediv fi (PyInt gz_r) (SCALE_GYRO fi) in
     ret (PyFloat ax, PyFloat ay, PyFloat az, PyFloat temp_c,
          PyFloat gx, PyFloat gy, PyFloat gz))%M
    (fun e =>
       (print ("I2C Error: " ++ str_exn e) ;;;
        ret (PyInt 0, PyInt 0, PyInt 0, PyInt 0, PyInt 0, PyInt 0, PyInt 0))%M).

(** ** 2. Synchronous helpers *)

Definition externalAcelerometers (fi : float_impl)
    (sensor_device : option MPU6050) : M (option ExtDict.t) :=
  match sensor_device with
  | None => ret None
  | Some dev =>
      (data <- get_all_data_scaled fi dev ;;
       let '(ax, ay, az, temp_c, gx, gy, gz) := data in
       ret (Some (ExtDict.mk ax ay az gx gy gz temp_c)))%M
  end.

Definition getInternalAccelerometerData (accel_obj : option Accel)
    (has_filtered_method : bool) : M (option IntDict.t) :=
  match accel_obj with
  | None => ret None
  | Some _ =>
      if has_filtered_method then
        (xyz <- accel_read ;;
         let '(x, y, z) := xyz in
         ret (Some (IntDict.mk x y z "g-force")))%M
      else
        (xyz <- accel_read ;;
         let '(x, y, z) := xyz in
         ret (Some (IntDict.mk x y z "raw")))%M
  end.

(** ** 3. Asynchronous wrappers *)

Definition get_internal_data_async (accel_obj : option Accel)
    (has_filtered_method : bool) : coro (option IntDict.t) :=
  (data <- call (getInternalAccelerometerData accel_obj has_filtered_method) ;;
   sleep_ms 0 ;;;
   Ret data)%coro.

Definition get_external_data_async (fi : float_impl)
    (sensor_device : option MPU6050) : coro (option ExtDict.t) :=
  (data <- call (externalAcelerometers fi sensor_device) ;;
   sleep_ms 0 ;;;
   Ret data)%coro.

(** ** 4. Fusion *)

Definition NORMALIZATION_RANGE_G (fi : float_impl) : spec_float := fmake fi 2 0.
Definition NORMALIZATION_RANGE_V1_RAW (fi : float_impl) : spec_float :=
  fmake fi 32 0.

Record Fused := mkFused {
  norm_x : spec_float;
  norm_y : spec_float;
  norm_z : spec_float
}.

(** [max(-1.0, min(1.0, (a + b) / 2.0))] *)
Definition average_and_clamp (fi : float_impl) (a b : spec_float) : spec_float :=
  Py.max (fmake fi (-1) 0)
         (Py.min (fmake fi 1 0) (fdiv fi (fadd fi a b) (fmake fi 2 0))).

(** Steps 2 to 4 of [get_averaged_accel_data_async], on two dicts. *)
Definition normalize_average_clamp (fi : float_impl)
    (int_data : IntDict.t) (ext_data : ExtDict.t) : Fused :=
  let int_norm_factor :=
    if String.eqb (IntDict.units int_data) "g-force"
    then NORMALIZATION_RANGE_G fi
    else NORMALIZATION_RANGE_V1_RAW fi in
  let int_norm_x := truediv fi (IntDict.accel_x int_data) int_norm_factor in
  let int_norm_y := truediv fi (IntDict.accel_y int_data) int_norm_factor in
  let int_norm_z := truediv fi (IntDict.accel_z int_data) int_norm_factor in
  let ext_norm_x := truediv fi (ExtDict.accel_x ext_data) (NORMALIZATION_RANGE_G fi) in
  let ext_norm_y := truediv fi (ExtDict.accel_y ext_data) (NORMALIZATION_RANGE_G fi) in
  let ext_norm_z := truediv fi (ExtDict.accel_z ext_data) (NORMALIZATION_RANGE_G fi) in
  let avg_x := average_and_clamp fi int_norm_x ext_norm_x in
  let avg_y := average_and_clamp fi int_norm_y ext_norm_y in
  let avg_z := average_and_clamp fi int_norm_z ext_norm_z in
  mkFused avg_x avg_y avg_z.

(** The function from [if not int_data or not ext_data] on: what the spec
    calls [fuse]. *)
Definition fuse (fi : float_impl) (int_data : option IntDict.t)
    (ext_data : option ExtDict.t) : M (option Fused) :=
  match int_data, ext_data with
  | Some i, Some e => ret (Some (normalize_average_clamp fi i e))
  | _, _ => (print "Error reading one or more sensors." ;;; ret None)%M
  end.

(** The join with its [except OSError]: [None] stands for the early
    [return None] of the handler. *)
Definition joined_reads (fi : float_impl) (internal_obj : option Accel)
    (internal_has_filter : bool) (external_obj : option MPU6050)
  : coro (option (option IntDict.t * option ExtDict.t)) :=
  ctry_OSError
    (r <- gather (get_internal_data_async internal_obj internal_has_filter)
                 (get_external_data_async fi external_obj) ;;
     Ret (Some r))%coro
    (fun e =>
       (call (print ("Sensor read error: " ++ str_exn e)) ;;; Ret None)%coro).

Definition get_averaged_accel_data_async (fi : float_impl)
    (internal_obj : option Accel) (internal_has_filter : bool)
    (external_obj : option MPU6050) : coro (option Fused) :=
  (j <- joined_reads fi internal_obj internal_has_filter external_obj ;;
   match j with
   | None => Ret None
   | Some (int_data, ext_data) => call (fuse fi int_data ext_data)
   end)%coro.

(** ** 5. Blinker: one turn of [while True] *)

Definition blink_led_body (period_ms : Z) : coro unit :=
  (call led_toggle ;;; sleep_ms period_ms)%coro.

(** ** 6. Main loop: one turn of [while True], after a successful
       initialisation.  The digits of the printed line are not modelled. *)

Definition main_loop_body (fi : float_impl) (internal_accel : option Accel)
    (has_filtered_method : bool) (external_mpu : option MPU6050) : coro unit :=
  (fused_data <- get_averaged_accel_data_async fi internal_accel
                   has_filtered_method external_mpu ;;
   match fused_data with
   | Some _ => call (print "Fused Norm: X=... | Y=... | Z=...")
   | None => Ret tt
   end ;;;
   sleep_ms 200)%coro.

(** The module's [except KeyboardInterrupt: ... finally: ...]. *)
Definition on_KeyboardInterrupt : M unit :=
  (print "Interrupted" ;;; print "Loop stopped.")%M.

End AsincroAccel.


(* ===================================================================== *)
(** * The cooperative scheduler *)
(* ===================================================================== *)

Module Scheduler.

(** Modelled from the spec: the run loop of [uasyncio] is not part of the
    sources.  Section 4.5: single-threaded and non-preemptive; a task is
    Ready or Suspended-until(deadline); the loop repeatedly selects the
    Ready task with the earliest registration order among those whose
    deadline has elapsed, runs it until it yields or completes, and
    re-evaluates; a top-level periodic task that completes a turn goes on
    with its next turn.  With nothing ready the loop waits for the
    earliest deadline. *)
Record task := mkTask {
  wake : Z;             (* Suspended-until; Ready once the clock reaches it *)
  cur : coro unit;      (* the rest of the current turn *)
  body : coro unit      (* one turn of the task's [while True] *)
}.

Record sched := mkSched {
  world : World;
  tasks : list task     (* in registration order *)
}.

Definition set_ticks (t : Z) (w : World) : World :=
  mkWorld (accel_hw w) (i2c_hw w) (accel_latency w) (i2c_latency w)
          (mpu_buffer w) (led1 w) (led_log w) (stdout w) t.

(** The first registered task whose deadline has elapsed, with the tasks
    before and after it. *)
Fixpoint pick (now : Z) (ts : list task)
  : option (list task * task * list task) :=
  match ts with
  | [] => None
  | t :: rest =>
      if wake t <=? now then Some ([], t, rest)
      else match pick now rest with
           | Some (pre, x, post) => Some (t :: pre, x, post)
           | None => None
           end
  end.

Fixpoint earliest (ts : list task) : option Z :=
  match ts with
  | [] => None
  | t :: rest =>
      match earliest rest with
      | Some d => Some (Z.min (wake t) d)
      | None => Some (wake t)
      end
  end.

(** A quantum of a [while True] task: when the turn in progress ends, the
    next turn starts in the same quantum. *)
Definition resume_loop (t : task) (w : World) : World * status unit :=
  match resume (cur t) w with
  | (w', Done _) => resume (body t) w'
  | r => r
  end.

Definition step (s : sched) : sched :=
  let now := ticks_ms (world s) in
  match pick now (tasks s) with
  | Some (pre, t, post) =>
      match resume_loop t (world s) with
      | (w', Suspended ms k) =>
          mkSched w' (pre ++ mkTask (ticks_ms w' + ms) k (body t) :: post)
      | (w', Done _) =>
          mkSched w' (pre ++ mkTask (ticks_ms w') (body t) (body t) :: post)
      | (w', Raised _) => mkSched w' (pre ++ post)
      end
  | None =>
      match earliest (tasks s) with
      | Some d => mkSched (set_ticks d (world s)) (tasks s)
      | None => s
      end
  end.

Fixpoint steps (n : nat) (s : sched) : sched :=
  match n with
  | O => s
  | S n' => steps n' (step s)
  end.

(** Nothing starts at or after [deadline]: the clock has reached it, or
    every task sleeps past it. *)
Definition over (deadline : Z) (s : sched) : bool :=
  (deadline <=? ticks_ms (world s))
  || match pick (ticks_ms (world s)) (tasks s), earliest (tasks s) with
     | Some _, _ => false
     | None, Some d => deadline <=? d
     | None, None => true
     end.

(** The loop run until [deadline] on the simulated clock; [None] if [fuel]
    quanta do not get there. *)
Fixpoint run_until (fuel : nat) (deadline : Z) (s : sched) : option sched :=
  if over deadline s then Some s
  else match fuel with
       | O => None
       | S fuel' => run_until fuel' deadline (step s)
       end.

(** [main()] past its initialisation: the main task is running and has
    just registered the blinker with [create_task]. *)
Definition main_tasks (fi : float_impl) (internal_accel : option Accel)
    (has_filtered_method : bool) (external_mpu : option MPU6050) : list task :=
  let fusion := AsincroAccel.main_loop_body fi internal_accel
                  has_filtered_method external_mpu in
  let blink := AsincroAccel.blink_led_body 500 in
  [ mkTask 0 fusion fusion; mkTask 0 blink blink ].


(** The script of asincroAccel.py interrupted by the operator after [n]
    quanta of the loop. *)
Definition run_interrupted (n : nat) (s : sched) : World :=
  fst (AsincroAccel.on_KeyboardInterrupt (world (steps n s))).

End Scheduler.

(* ===================================================================== *)
(** * Sample worlds *)
(* ===================================================================== *)

(** A board at rest: the internal accelerometer reads 16 counts on Z, the
    MPU-6050 reads 1 g on Z; each device answers [n] reads, a pyb.Accel
    read blocks [d_int] ms and an I2C read [d_ext] ms. *)
Definition frame_at_rest : list Z := [0; 0; 0; 0; 0x40; 0; 0; 0; 0; 0; 0; 0; 0; 0].

Definition world_at_rest (n : nat) (d_int d_ext : Z) : World :=
  mkWorld (repeat (inr (PyInt 0, PyInt 0, PyInt 16)) n)
          (repeat (inr frame_at_rest) n)
          d_int d_ext (repeat 0 14) false [] [] 0.

(** The same board when the first I2C transaction fails on the bus. *)
Definition world_bus_fault : World :=
  mkWorld [inr (PyInt 0, PyInt 0, PyInt 16)] [inl "[Errno 5] EIO"%string]
          1 1 (repeat 0 14) false [] [] 0.

(** asincroAccel.py on the board at rest, initialisation done. *)
Definition board_at_rest (d_int d_ext : Z) : Scheduler.sched :=
  Scheduler.mkSched (world_at_rest 100 d_int d_ext)
    (Scheduler.main_tasks FloatSingle (Some AccelObj) false
       (Some (mkMPU6050 AsincroAccel.DEFAULT_ADDR))).

(* ===================================================================== *)
(** * The invariant of a run of the two tasks *)
(* ===================================================================== *)

Section RunInvariant.
Import AsincroAccel Scheduler.

(** A quantum of the fusion loop leaves the latencies and the toggle log
    alone. *)
Definition same_timing (w w' : World) : Prop :=
  accel_latency w' = accel_latency w
  /\ i2c_latency w' = i2c_latency w
  /\ led_log w' = led_log w.









End RunInvariant.

(* ===================================================================== *)
(** * The words of the specification *)
(* ===================================================================== *)

(** The units tag of an AccelSample and the string the code uses for it. *)
Variant units_tag := RawCounts | GForce.

Definition tag_string (u : units_tag) : string :=
  match u with
  | GForce => "g-force"
  | RawCounts => "raw"
  end.

(** "GForce units divisor = 2.0, RawCounts units divisor = 32.0". *)
Definition full_scale_divisor (fi : float_impl) (u : units_tag) : spec_float :=
  match u with
  | GForce => fmake fi 2 0
  | RawCounts => fmake fi 32 0
  end.

(** "clamp((i/d + e/2.0)/2.0)" with "max(-1.0, min(1.0, avg))". *)
Definition spec_fused_axis (fi : float_impl) (u : units_tag) (i e : num)
  : spec_float :=
  let avg :=
    fdiv fi (fadd fi (truediv fi i (full_scale_divisor fi u))
                     (truediv fi e (fmake fi 2 0)))
            (fmake fi 2 0) in
  Py.max (fmake fi (-1) 0) (Py.min (fmake fi 1 0) avg).

(** Membership in the closed interval [-1.0, 1.0], by IEEE comparison (a
    NaN is in no interval). *)
Definition in_unit_interval (fi : float_impl) (v : spec_float) : Prop :=
  SFleb (fmake fi (-1) 0) v = true /\ SFleb v (fmake fi 1 0) = true.




(** The world with everything but the console erased. *)
Definition hardware (w : World) :=
  (accel_hw w, i2c_hw w, accel_latency w, i2c_latency w, mpu_buffer w,
   led1 w, led_log w, ticks_ms w).

(* ===================================================================== *)
(** * Readings of the MPU-6050 *)
(* ===================================================================== *)

(** A value a bytearray can hold. *)
Definition is_byte (b : Z) : Prop := 0 <= b < 256.

(** [-2.0 <= v <= 2.0], by IEEE comparison: the range the fusion divides
    the external sensor by. *)
Definition within_2g (fi : float_impl) (v : spec_float) : bool :=
  SFleb (fmake fi (-2) 0) v && SFleb v (fmake fi 2 0).

(** The tag the internal adapter gives its sample. *)
Definition tag_of_filter (has_filtered_method : bool) : units_tag :=
  if has_filtered_method then GForce else RawCounts.

(* ===================================================================== *)
(** * The duty cycles the motor goes through *)
(* ===================================================================== *)

(** What one logged write (channel, percent) does to the pair of duty
    cycles of channel 1 and channel 2. *)
Definition apply_write (wr : Z * Z) (s : Z * Z) : Z * Z :=
  if fst wr =? 1 then (snd wr, snd s) else (fst s, snd wr).

(** The pairs of duty cycles the channels have been through, latest first,
    from a log of writes (latest first); both are 0 before the first
    write. *)
Fixpoint duty_history (writes : list (Z * Z)) : list (Z * Z) :=
  match writes with
  | [] => []
  | wr :: older =>
      apply_write wr (hd (0, 0) (duty_history older)) :: duty_history older
  end.

(** At most one channel driven, both within 0..100. *)
Definition one_driven (s : Z * Z) : Prop :=
  (fst s = 0 \/ snd s = 0) /\ 0 <= fst s <= 100 /\ 0 <= snd s <= 100.

(** The log of a motor state accounts for its channels. *)
Definition logged (m : MotorContol.Motor) : Prop :=
  hd (0, 0) (duty_history (MotorContol.pwm_writes m))
  = (MotorContol.pwm_in1 m, MotorContol.pwm_in2 m).

(** The duty cycles the demo loop holds before its statement [pc]. *)
Definition expected_duty (pc : nat) : Z * Z :=
  match pc with
  | 2%nat | 3%nat | 4%nat => (60, 0)
  | 8%nat | 9%nat | 10%nat => (0, 90)
  | _ => (0, 0)
  end.

(* ===================================================================== *)
(** * asincroAccel.py: bring-up and [main] *)
(* ===================================================================== *)

Module AsincroMain.
Import AsincroAccel.

(** What bring-up finds: [pyb.Accel()] raises OSError or gives the object,
    with or without [filtered_xyz]; [i2c.scan()] lists the addresses that
    answer; the write that wakes the MPU-6050 is acknowledged or raises. *)
Record InitHw := mkInitHw {
  accel_probe : answer bool;
  i2c_scan : list Z;
  wake_write : answer unit
}.

Definition REG_PWR_MGMT_1 : Z := 0x6B.

(** [pyb.Accel()] and [hasattr(internal_accel, "filtered_xyz")] *)
Definition pyb_Accel (hw : InitHw) : M (Accel * bool) :=
  fun w =>
    match accel_probe hw with
    | inl msg => (w, inl (OSError msg))
    | inr has => (w, inr (AccelObj, has))
    end.

(** [i2c.writeto_mem(addr, reg, b"\x00")]: one bus transaction. *)
Definition i2c_writeto_mem (hw : InitHw) (addr reg : Z) : M unit :=
  fun w =>
    let w' := mkWorld (accel_hw w) (i2c_hw w) (accel_latency w) (i2c_latency w)
                      (mpu_buffer w) (led1 w) (led_log w) (stdout w)
                      (ticks_ms w + i2c_latency w) in
    match wake_write hw with
    | inl msg => (w', inl (OSError msg))
    | inr _ => (w', inr tt)
    end.

(** [time.sleep_ms(ms)], blocking. *)
Definition time_sleep_ms (ms : Z) : M unit :=
  fun w =>
    (mkWorld (accel_hw w) (i2c_hw w) (accel_latency w) (i2c_latency w)
             (mpu_buffer w) (led1 w) (led_log w) (stdout w)
             (ticks_ms w + ms),
     inr tt).

(** [self._buffer = bytearray(14)] *)
Definition new_buffer : M unit :=
  fun w =>
    (mkWorld (accel_hw w) (i2c_hw w) (accel_latency w) (i2c_latency w)
             (repeat 0 14) (led1 w) (led_log w) (stdout w) (ticks_ms w),
     inr tt).

(** [MPU6050.__init__] *)
Definition MPU6050_init (hw : InitHw) (addr : Z) : M MPU6050 :=
  (new_buffer ;;;
   try_except_OSError
     (i2c_writeto_mem hw addr REG_PWR_MGMT_1 ;;; time_sleep_ms 100)
     (fun e => print ("Failed to init MPU6050: " ++ str_exn e) ;;; raise e) ;;;
   ret (mkMPU6050 addr))%M.

(** [try: m except Exception as e: h e]: KeyboardInterrupt is not an
    Exception. *)
Definition try_except_Exception {A} (m : M A) (h : exn -> M A) : M A :=
  fun w =>
    match m w with
    | (w', inl (OSError msg)) => h (OSError msg) w'
    | r => r
    end.

(** The initialisation of [main]; None is its early [return]. *)
Definition main_init (hw : InitHw) : M (option (Accel * bool * MPU6050)) :=
  (print "Initializing all sensors..." ;;;
   try_except_Exception
     (found <- pyb_Accel hw ;;
      print "Internal accelerometer initialized." ;;;
      (if existsb (Z.eqb DEFAULT_ADDR) (i2c_scan hw) then ret tt
       else raise (OSError "MPU-6050 not found at 0x68.")) ;;;
      external_mpu <- MPU6050_init hw DEFAULT_ADDR ;;
      print "External MPU-6050 initialized." ;;;
      ret (Some (fst found, snd found, external_mpu)))
     (fun e =>
        print ("FATAL ERROR during initialization: " ++ str_exn e) ;;;
        ret None))%M.

(** [main] up to its loop: the tasks it leaves to the scheduler, none when
    it has returned.  The line break printed before "Starting" is a line
    of its own. *)
Definition main (fi : float_impl) (hw : InitHw) (w : World) : Scheduler.sched :=
  match main_init hw w with
  | (w', inr (Some (internal_accel, has_filtered_method, external_mpu))) =>
      let banner :=
        (print "" ;;;
         print "Starting sensor fusion loop..." ;;;
         print "The RED LED (LED 1) should be blinking." ;;;
         print "--------------------------------------------------")%M in
      Scheduler.mkSched (fst (banner w'))
        (Scheduler.main_tasks fi (Some internal_accel) has_filtered_method
           (Some external_mpu))
  | (w', _) => Scheduler.mkSched w' []
  end.


End AsincroMain.

(* ===================================================================== *)
(** * Properties *)
(* ===================================================================== *)

(** ** The model on concrete inputs *)

Example unpack_minus_one : be_int16 0xFF 0xFF = -1.
Proof. reflexivity. Qed.

Example read_signed_word_is_unpack (hi lo : Z) :
  ExternalAccel._read_signed_word hi lo = be_int16 hi lo.
Proof. reflexivity. Qed.

Example external_at_rest_reads_one_g :
  option_map ExtDict.accel_z
    (match snd (AsincroAccel.externalAcelerometers FloatSingle
                  (Some (mkMPU6050 AsincroAccel.DEFAULT_ADDR))
                  (world_at_rest 1 0 0)) with
     | inr d => d
     | inl _ => None
     end)
  = Some (PyFloat (fmake FloatSingle 1 0)).
Proof. vm_compute. reflexivity. Qed.

Example forward_overspeed :
  let m := MotorContol.motorControl 150 1 MotorContol.boot in
  (MotorContol.pwm_in1 m, MotorContol.pwm_in2 m) = (100, 0).
Proof. reflexivity. Qed.

Example reverse_negative_speed :
  let m := MotorContol.motorControl (-5) (-1) MotorContol.boot in
  (MotorContol.pwm_in1 m, MotorContol.pwm_in2 m) = (0, 0).
Proof. reflexivity. Qed.

Example blinker_at_rest_toggles_on_time :
  option_map (fun s => rev (led_log (Scheduler.world s)))
    (Scheduler.run_until 100 2000 (board_at_rest 0 0))
  = Some [0; 500; 1000; 1500].
Proof. vm_compute. reflexivity. Qed.

(** ** Motor control *)

Section MotorControl.
Import MotorContol.

Lemma clamp_speed_range (speed : Z) : 0 <= clamp_speed speed <= 100.
Proof.
  unfold clamp_speed.
  destruct (Z.ltb_spec speed 0); [ cbn; lia | ].
  destruct (Z.gtb_spec speed 100); lia.
Qed.

Lemma clamp_speed_max_min (speed : Z) :
  clamp_speed speed = Z.max 0 (Z.min 100 speed).
Proof.
  unfold clamp_speed.
  destruct (Z.ltb_spec speed 0); [ cbn; lia | ].
  destruct (Z.gtb_spec speed 100); lia.
Qed.

(** C10: for every integer speed and every direction, motorControl clamps
    the speed into [0, 100] and then writes channel 1 and channel 2 once
    each, so that both end in [0, 100] with at most one of them nonzero:
    direction 1 drives channel 1 at the clamped speed and channel 2 at 0,
    direction -1 drives channel 2 at the clamped speed and channel 1 at 0,
    any other direction sets both to 0 whatever the speed. *)
Theorem motorControl_duty_cycles (speed direction : Z) (m : Motor) :
  let s := Z.max 0 (Z.min 100 speed) in
  let m' := motorControl speed direction m in
  clamp_speed speed = s
  /\ 0 <= s <= 100
  /\ 0 <= pwm_in1 m' <= 100
  /\ 0 <= pwm_in2 m' <= 100
  /\ (pwm_in1 m' = 0 \/ pwm_in2 m' = 0)
  /\ pwm_in1 (motorControl speed 1 m) = s
  /\ pwm_in2 (motorControl speed 1 m) = 0
  /\ pwm_in1 (motorControl speed (-1) m) = 0
  /\ pwm_in2 (motorControl speed (-1) m) = s
  /\ (direction = 1 \/ direction = -1 \/ (pwm_in1 m' = 0 /\ pwm_in2 m' = 0))
  /\ pwm_writes m' = (2, pwm_in2 m') :: (1, pwm_in1 m') :: pwm_writes m.
Proof.
  intros s m'.
  pose proof (clamp_speed_max_min speed) as Hs.
  pose proof (clamp_speed_range speed) as Hr.
  fold s in Hs. rewrite Hs in Hr.
  assert (Hm : m' = motorControl speed direction m) by reflexivity.
  unfold motorControl in *. rewrite Hs in *.
  repeat split; try (cbn; lia);
    destruct (Z.eqb_spec direction 1) as [->|H1];
    try destruct (Z.eqb_spec direction (-1)) as [->|H2];
    subst m'; cbn; auto; lia.
Qed.

End MotorControl.

(** ** Fusion: normalize, average, clamp *)

Section Fusion.
Import AsincroAccel.
Variable fi : float_impl.

Lemma SFltb_SFleb (a b : spec_float) : SFltb a b = true -> SFleb a b = true.
Proof.
  unfold SFltb, SFleb. destruct (SFcompare a b) as [[ | | ]|]; congruence.
Qed.

Lemma minus_one_in_unit_interval : in_unit_interval fi (fmake fi (-1) 0).
Proof. destruct fi; split; vm_compute; reflexivity. Qed.

Lemma one_in_unit_interval : in_unit_interval fi (fmake fi 1 0).
Proof. destruct fi; split; vm_compute; reflexivity. Qed.

(** The clamp lands in [-1.0, 1.0] whatever it is given: a finite value,
    an infinity or a NaN. *)
Lemma clamp_in_unit_interval (v : spec_float) :
  in_unit_interval fi (Py.max (fmake fi (-1) 0) (Py.min (fmake fi 1 0) v)).
Proof.
  unfold Py.max, Py.min.
  destruct (SFltb v (fmake fi 1 0)) eqn:Hhi.
  - destruct (SFltb (fmake fi (-1) 0) v) eqn:Hlo.
    + split; apply SFltb_SFleb; assumption.
    + apply minus_one_in_unit_interval.
  - destruct (SFltb (fmake fi (-1) 0) (fmake fi 1 0)).
    + apply one_in_unit_interval.
    + apply minus_one_in_unit_interval.
Qed.

Lemma average_and_clamp_in_unit_interval (a b : spec_float) :
  in_unit_interval fi (average_and_clamp fi a b).
Proof. unfold average_and_clamp. apply clamp_in_unit_interval. Qed.

(** C1: for every pair of present samples, whatever the axis values (ints
    or floats of any magnitude, infinities and NaN included) and whatever
    the units tag, the fusion step returns a vector and each of its
    components lies in the closed interval [-1.0, 1.0]. *)
Theorem fuse_components_in_unit_interval
    (int_data : IntDict.t) (ext_data : ExtDict.t) (w : World) :
  exists v : Fused,
    snd (fuse fi (Some int_data) (Some ext_data) w) = inr (Some v)
    /\ in_unit_interval fi (norm_x v)
    /\ in_unit_interval fi (norm_y v)
    /\ in_unit_interval fi (norm_z v).
Proof.
  exists (normalize_average_clamp fi int_data ext_data).
  split; [ reflexivity | ].
  unfold normalize_average_clamp; cbn [norm_x norm_y norm_z].
  repeat split; apply average_and_clamp_in_unit_interval.
Qed.

(** The divisor the code selects for each of the two tags. *)
Lemma int_norm_factor_of_tag (u : units_tag) :
  (if String.eqb (tag_string u) "g-force"
   then NORMALIZATION_RANGE_G fi else NORMALIZATION_RANGE_V1_RAW fi)
  = full_scale_divisor fi u.
Proof. destruct u; reflexivity. Qed.

End Fusion.

(** The two worked examples of the specification, run through the code in
    either float format: 1.25 is clamped to 1.0, and 8 raw counts against
    0 give 0.125. *)
Lemma fused_x_examples (fi : float_impl) (gx gy gz t : num) :
  AsincroAccel.norm_x
    (AsincroAccel.normalize_average_clamp fi
       (IntDict.mk (PyFloat (fmake fi 4 0)) (PyFloat (fmake fi 0 0))
                   (PyFloat (fmake fi 0 0)) "g-force")
       (ExtDict.mk (PyFloat (fmake fi 1 0)) (PyFloat (fmake fi 0 0))
                   (PyFloat (fmake fi 0 0)) gx gy gz t))
  = fmake fi 1 0
  /\ AsincroAccel.norm_x
       (AsincroAccel.normalize_average_clamp fi
          (IntDict.mk (PyInt 8) (PyInt 0) (PyInt 0) "raw")
          (ExtDict.mk (PyFloat (fmake fi 0 0)) (PyFloat (fmake fi 0 0))
                      (PyFloat (fmake fi 0 0)) gx gy gz t))
     = fmake fi 1 (-3).
Proof. destruct fi; split; vm_compute; reflexivity. Qed.

(** C2: for every pair of present samples the fused value of each axis is
    clamp((i/d + e/2.0)/2.0), with d = 2.0 for an internal sample tagged
    "g-force" and d = 32.0 for one tagged "raw", the external value e being
    divided by 2.0 whatever the sample; internal (4,0,0) tagged g-force with
    external (1,0,0) gives X = 1.0, internal (8,0,0) tagged raw with
    external (0,0,0) gives X = 0.125. *)
Theorem fuse_is_clamped_average (fi : float_impl) (u : units_tag)
    (x y z : num) (ext_data : ExtDict.t) (w : World) :
  AsincroAccel.fuse fi (Some (IntDict.mk x y z (tag_string u))) (Some ext_data) w
  = (w, inr (Some (AsincroAccel.mkFused
                     (spec_fused_axis fi u x (ExtDict.accel_x ext_data))
                     (spec_fused_axis fi u y (ExtDict.accel_y ext_data))
                     (spec_fused_axis fi u z (ExtDict.accel_z ext_data)))))
  /\ AsincroAccel.norm_x
       (AsincroAccel.normalize_average_clamp fi
          (IntDict.mk (PyFloat (fmake fi 4 0)) (PyFloat (fmake fi 0 0))
                      (PyFloat (fmake fi 0 0)) "g-force")
          (ExtDict.mk (PyFloat (fmake fi 1 0)) (PyFloat (fmake fi 0 0))
                      (PyFloat (fmake fi 0 0)) (ExtDict.gyro_x ext_data)
                      (ExtDict.gyro_y ext_data) (ExtDict.gyro_z ext_data)
                      (ExtDict.temp_c ext_data)))
     = fmake fi 1 0
  /\ AsincroAccel.norm_x
       (AsincroAccel.normalize_average_clamp fi
          (IntDict.mk (PyInt 8) (PyInt 0) (PyInt 0) "raw")
          (ExtDict.mk (PyFloat (fmake fi 0 0)) (PyFloat (fmake fi 0 0))
                      (PyFloat (fmake fi 0 0)) (ExtDict.gyro_x ext_data)
                      (ExtDict.gyro_y ext_data) (ExtDict.gyro_z ext_data)
                      (ExtDict.temp_c ext_data)))
     = fmake fi 1 (-3).
Proof.
  split; [ | apply fused_x_examples ].
  unfold AsincroAccel.fuse, ret, AsincroAccel.normalize_average_clamp.
  cbn [IntDict.units IntDict.accel_x IntDict.accel_y IntDict.accel_z].
  rewrite int_norm_factor_of_tag.
  reflexivity.
Qed.

(** ** Absent samples and absent handles *)

(** C3: absence yields no fused output and no exception: the fusion step
    returns None as soon as one sample is None, whatever the other is; a
    read through an absent handle returns None; and a whole cycle run with
    an absent handle on either side returns None. *)
Theorem absence_gives_no_fused_output (fi : float_impl)
    (x_int : option IntDict.t) (x_ext : option ExtDict.t)
    (accel_obj : option Accel) (has_filtered_method : bool)
    (sensor_device : option MPU6050)
    (others : list (World -> World)) (w : World) :
  snd (AsincroAccel.fuse fi None x_ext w) = inr None
  /\ snd (AsincroAccel.fuse fi x_int None w) = inr None
  /\ AsincroAccel.getInternalAccelerometerData None has_filtered_method w
     = (w, inr None)
  /\ AsincroAccel.externalAcelerometers fi None w = (w, inr None)
  /\ snd (ExternalAccel.externalAcelerometers fi None w) = inr None
  /\ snd (drive (AsincroAccel.get_averaged_accel_data_async fi None
                   has_filtered_method sensor_device) others w) = inr None
  /\ snd (drive (AsincroAccel.get_averaged_accel_data_async fi accel_obj
                   has_filtered_method None) others w) = inr None.
Proof.
  repeat apply conj.
  - reflexivity.
  - destruct x_int; reflexivity.
  - reflexivity.
  - reflexivity.
  - reflexivity.
  - unfold AsincroAccel.get_averaged_accel_data_async, AsincroAccel.joined_reads,
      AsincroAccel.get_internal_data_async, AsincroAccel.get_external_data_async,
      AsincroAccel.getInternalAccelerometerData, AsincroAccel.externalAcelerometers.
    destruct sensor_device as [dev|]; cbn; [ | reflexivity ].
    unfold AsincroAccel.get_all_data_scaled, try_except_OSError, bind,
      i2c_readfrom_mem_into.
    destruct (i2c_hw (hd (fun w0 => w0) others w)) as [|[msg|frame] rest];
      reflexivity.
  - unfold AsincroAccel.get_averaged_accel_data_async, AsincroAccel.joined_reads,
      AsincroAccel.get_internal_data_async, AsincroAccel.get_external_data_async,
      AsincroAccel.getInternalAccelerometerData, AsincroAccel.externalAcelerometers.
    destruct accel_obj as [a|]; cbn; [ | reflexivity ].
    destruct has_filtered_method; unfold bind, accel_read;
      destruct (accel_hw w) as [|[msg|[[x y] z]] rest]; reflexivity.
Qed.

(** ** Determinism *)

(** C6: the fusion step is deterministic and stateless: its result does
    not depend on the world it runs in, so two applications to the same
    samples return identical vectors; it leaves the hardware untouched, and
    with both samples present it leaves the whole world as it was. *)
Theorem fuse_deterministic_stateless (fi : float_impl)
    (int_data : option IntDict.t) (ext_data : option ExtDict.t)
    (i : IntDict.t) (e : ExtDict.t) (w1 w2 : World) :
  snd (AsincroAccel.fuse fi int_data ext_data w1)
  = snd (AsincroAccel.fuse fi int_data ext_data w2)
  /\ hardware (fst (AsincroAccel.fuse fi int_data ext_data w1)) = hardware w1
  /\ AsincroAccel.fuse fi (Some i) (Some e) w1
     = (w1, inr (Some (AsincroAccel.normalize_average_clamp fi i e)))
  /\ snd (AsincroAccel.fuse fi int_data ext_data
            (fst (AsincroAccel.fuse fi int_data ext_data w1)))
     = snd (AsincroAccel.fuse fi int_data ext_data w1).
Proof.
  destruct int_data, ext_data; repeat apply conj; reflexivity.
Qed.

(** ** Coroutines: wrappers and join *)

Section Coroutines.
Import AsincroAccel.






End Coroutines.

(** ** The join *)

Section Join.
Import AsincroAccel.



End Join.

(** ** Transport faults of the external sensor *)

(** Whatever the driver, an I2C transaction that raises OSError is answered
    with the all-zero tuple, not with an error. *)
Lemma bus_fault_reads_as_zeros (fi : float_impl) (dev : MPU6050)
    (w : World) (msg : string) (rest : list (answer (list Z))) :
  i2c_hw w = inl msg :: rest ->
  snd (AsincroAccel.get_all_data_scaled fi dev w)
  = inr (PyInt 0, PyInt 0, PyInt 0, PyInt 0, PyInt 0, PyInt 0, PyInt 0)
  /\ snd (ExternalAccel.get_all_data_scaled fi dev w)
     = inr (PyInt 0, PyInt 0, PyInt 0, PyInt 0, PyInt 0, PyInt 0, PyInt 0).
Proof.
  intros Hw.
  unfold AsincroAccel.get_all_data_scaled, ExternalAccel.get_all_data_scaled,
    try_except_OSError, bind, i2c_readfrom_mem_into.
  rewrite Hw. split; reflexivity.
Qed.

(** C4, on the code: with the first I2C transaction failing, the driver of
    either script returns seven zeros, the adapter returns a dict of zeros,
    and the cycle returns a fused vector computed from them instead of
    None. *)
Theorem bus_fault_is_fused_as_zeros (fi : float_impl) (dev : MPU6050) :
  snd (AsincroAccel.get_all_data_scaled fi dev world_bus_fault)
  = inr (PyInt 0, PyInt 0, PyInt 0, PyInt 0, PyInt 0, PyInt 0, PyInt 0)
  /\ snd (ExternalAccel.get_all_data_scaled fi dev world_bus_fault)
     = inr (PyInt 0, PyInt 0, PyInt 0, PyInt 0, PyInt 0, PyInt 0, PyInt 0)
  /\ snd (AsincroAccel.externalAcelerometers fi (Some dev) world_bus_fault)
     = inr (Some (ExtDict.mk (PyInt 0) (PyInt 0) (PyInt 0)
                             (PyInt 0) (PyInt 0) (PyInt 0) (PyInt 0)))
  /\ snd (drive (AsincroAccel.get_averaged_accel_data_async fi (Some AccelObj)
                   false (Some dev)) [] world_bus_fault)
     = inr (Some (AsincroAccel.mkFused (fmake fi 0 0) (fmake fi 0 0)
                                       (fmake fi 1 (-2)))).
Proof.
  repeat apply conj; try reflexivity.
  destruct fi; vm_compute; reflexivity.
Qed.

(** ** Shutdown *)

Lemma motor_interrupt_handler_stops (m : MotorContol.Motor) :
  MotorContol.pwm_in1 (MotorContol.on_KeyboardInterrupt m) = 0
  /\ MotorContol.pwm_in2 (MotorContol.on_KeyboardInterrupt m) = 0.
Proof. split; reflexivity. Qed.

Lemma asincro_interrupt_handler_keeps_led (w : World) :
  led1 (fst (AsincroAccel.on_KeyboardInterrupt w)) = led1 w.
Proof. reflexivity. Qed.

(** C9, on the code: motorContol.py, interrupted after any number of
    statements, ends with both PWM channels at 0; asincroAccel.py,
    interrupted once the blinker has run, prints its two lines and ends
    with the LED still lit. *)
Theorem interrupt_leaves_led_driven (n : nat) :
  MotorContol.pwm_in1 (MotorContol.run_interrupted n) = 0
  /\ MotorContol.pwm_in2 (MotorContol.run_interrupted n) = 0
  /\ led1 (Scheduler.world (Scheduler.steps 4 (board_at_rest 1 1))) = true
  /\ led1 (Scheduler.run_interrupted 4 (board_at_rest 1 1)) = true
  /\ firstn 2 (stdout (Scheduler.run_interrupted 4 (board_at_rest 1 1)))
     = ["Loop stopped."; "Interrupted"]%string.
Proof.
  repeat apply conj; try apply motor_interrupt_handler_stops;
    vm_compute; reflexivity.
Qed.

(** ** Fairness of the scheduler *)

Section Quanta.
Import AsincroAccel Scheduler.

Lemma same_timing_refl w : same_timing w w.
Proof. repeat split. Qed.








Section Fairness.
Variables (fi : float_impl) (accel : option Accel) (filt : bool)
          (dev : option MPU6050) (dI dE : Z).
Hypotheses (HdI : 0 <= dI) (HdE : 0 <= dE) (HD : dI + dE <= 50).

Let fusion := main_loop_body fi accel filt dev.







End Fairness.




End Quanta.

(* ===================================================================== *)
(** * Further properties of the scripts *)
(* ===================================================================== *)

(** ** The MPU-6050 driver *)

Section Driver.

Lemma lor_shiftl_byte (hi lo : Z) :
  0 <= lo < 256 -> Z.lor (Z.shiftl hi 8) lo = hi * 256 + lo.
Proof.
  intros Hlo.
  assert (Hland : Z.land (Z.shiftl hi 8) lo = 0).
  { apply Z.bits_inj'. intros n Hn.
    rewrite Z.land_spec, Z.bits_0.
    destruct (Z.ltb_spec n 8) as [Hlt | Hge].
    - rewrite Z.shiftl_spec_low by assumption. reflexivity.
    - rewrite <- (Z.mod_small lo (2 ^ 8)) by (change (2 ^ 8) with 256; lia).
      rewrite Z.mod_pow2_bits_high by lia.
      apply andb_false_r. }
  rewrite <- Z.lxor_lor by assumption.
  rewrite <- Z.add_nocarry_lxor by assumption.
  rewrite Z.shiftl_mul_pow2 by lia. reflexivity.
Qed.

(** X1: on two bytes, [_read_signed_word] returns the 16-bit two's
    complement value of the big-endian pair: it lies in [-32768, 32767], is
    congruent to 256 * high + low modulo 65536, and is negative exactly
    when the top bit of the high byte is set. *)
Theorem read_signed_word_decodes (high_byte low_byte : Z) :
  is_byte high_byte -> is_byte low_byte ->
  -32768 <= ExternalAccel._read_signed_word high_byte low_byte <= 32767
  /\ ExternalAccel._read_signed_word high_byte low_byte mod 65536
     = high_byte * 256 + low_byte
  /\ (ExternalAccel._read_signed_word high_byte low_byte < 0
      <-> 128 <= high_byte).
Proof.
  unfold is_byte. intros Hh Hl. unfold ExternalAccel._read_signed_word.
  rewrite (lor_shiftl_byte _ _ Hl).
  change 0x8000 with 32768. change 0x10000 with 65536.
  destruct (Z.geb_spec (high_byte * 256 + low_byte) 32768) as [Hge | Hlt].
  - repeat apply conj; try lia.
    rewrite <- (Z.mod_unique (high_byte * 256 + low_byte - 65536) 65536 (-1)
                  (high_byte * 256 + low_byte)); lia.
  - repeat apply conj; try lia.
    apply Z.mod_small. lia.
Qed.

Lemma read_signed_word_decodes_witness :
  -32768 <= ExternalAccel._read_signed_word 0xFF 0x38 <= 32767
  /\ ExternalAccel._read_signed_word 0xFF 0x38 mod 65536 = 0xFF * 256 + 0x38
  /\ (ExternalAccel._read_signed_word 0xFF 0x38 < 0 <-> 128 <= 0xFF).
Proof.
  apply (read_signed_word_decodes 0xFF 0x38); unfold is_byte; lia.
Defined.

(** X2: [_read_signed_word] undoes the big-endian two's complement
    encoding: the two bytes of any v in [-32768, 32767] decode to v. *)
Theorem read_signed_word_round_trip (v : Z) :
  -32768 <= v <= 32767 ->
  ExternalAccel._read_signed_word ((v mod 65536) / 256) ((v mod 65536) mod 256)
  = v.
Proof.
  intros Hv. unfold ExternalAccel._read_signed_word.
  assert (Hu : 0 <= v mod 65536 < 65536) by (apply Z.mod_pos_bound; lia).
  rewrite lor_shiftl_byte by (apply Z.mod_pos_bound; lia).
  rewrite (Z.mul_comm _ 256), <- Z.div_mod by lia.
  change 0x8000 with 32768. change 0x10000 with 65536.
  destruct (Z.le_gt_cases 0 v) as [Hpos | Hneg].
  - rewrite Z.mod_small by lia.
    destruct (Z.geb_spec v 32768); lia.
  - assert (E : v mod 65536 = v + 65536).
    { symmetry. apply (Z.mod_unique v 65536 (-1)); lia. }
    rewrite E. destruct (Z.geb_spec (v + 65536) 32768); lia.
Qed.

Lemma read_signed_word_round_trip_witness :
  ExternalAccel._read_signed_word ((-200 mod 65536) / 256)
    ((-200 mod 65536) mod 256) = -200.
Proof. apply (read_signed_word_round_trip (-200)). lia. Defined.

(** The words [struct.unpack] reads from a buffer of bytes. *)
Lemma be_int16_range (hi lo : Z) :
  is_byte hi -> is_byte lo -> -32768 <= be_int16 hi lo <= 32767.
Proof.
  unfold is_byte. intros Hh Hl. unfold be_int16.
  rewrite (lor_shiftl_byte _ _ Hl).
  change 0x8000 with 32768. change 0x10000 with 65536.
  destruct (Z.geb_spec (hi * 256 + lo) 32768); lia.
Qed.

Lemma nth_is_byte (buf : list Z) (i : nat) :
  Forall is_byte buf -> is_byte (nth i buf 0).
Proof.
  intros H. destruct (Nat.lt_ge_cases i (List.length buf)) as [Hlt | Hge].
  - rewrite Forall_forall in H. apply H. apply nth_In. assumption.
  - rewrite nth_overflow by assumption. unfold is_byte. lia.
Qed.

Lemma unpack_h_range (buf : list Z) (i : nat) :
  Forall is_byte buf -> -32768 <= unpack_h buf i <= 32767.
Proof.
  intros H. unfold unpack_h. apply be_int16_range; apply nth_is_byte; assumption.
Qed.

Lemma Forall_firstn_keeps {A} (P : A -> Prop) (n : nat) :
  forall l, Forall P l -> Forall P (firstn n l).
Proof.
  induction n as [|n IH]; intros l H; [ constructor | ].
  destruct H as [|x l Hx Hl]; cbn [firstn]; constructor; auto.
Qed.

Lemma Forall_skipn_keeps {A} (P : A -> Prop) (n : nat) :
  forall l, Forall P l -> Forall P (skipn n l).
Proof.
  induction n as [|n IH]; intros l H; [ exact H | ].
  destruct H as [|x l Hx Hl]; cbn [skipn]; [ constructor | auto ].
Qed.

Lemma fill_buffer_bytes (buf frame : list Z) :
  Forall is_byte buf -> Forall is_byte frame ->
  Forall is_byte (fill_buffer buf frame).
Proof.
  intros Hb Hf. unfold fill_buffer.
  apply Forall_firstn_keeps. apply Forall_app. split; [ assumption | ].
  apply Forall_skipn_keeps. assumption.
Qed.

End Driver.

(** *** Scaling a register by 16384.0 is exact *)

Section ExactScaling.
Variables prec emax : Z.
Hypothesis Hprec : 1 < prec.
Hypothesis Hemax : prec < emax.

Lemma digits2_pos_iter_xO (q d : positive) :
  Z.pos (digits2_pos (Pos.iter xO q d)) = Z.pos (digits2_pos q) + Z.pos d.
Proof.
  induction d as [|d IH] using Pos.peano_ind.
  - cbn. lia.
  - rewrite Pos.iter_succ. cbn [digits2_pos]. lia.
Qed.

Lemma digits2_pos_lower (q : positive) :
  2 ^ (Z.pos (digits2_pos q) - 1) <= Z.pos q.
Proof.
  induction q as [q IH | q IH | ]; cbn [digits2_pos].
  - rewrite Pos2Z.inj_succ.
    replace (Z.succ (Z.pos (digits2_pos q)) - 1)
      with (Z.succ (Z.pos (digits2_pos q) - 1)) by lia.
    rewrite Z.pow_succ_r by lia. lia.
  - rewrite Pos2Z.inj_succ.
    replace (Z.succ (Z.pos (digits2_pos q)) - 1)
      with (Z.succ (Z.pos (digits2_pos q) - 1)) by lia.
    rewrite Z.pow_succ_r by lia. lia.
  - cbn. lia.
Qed.

(** A mantissa of exactly [prec] digits at an exponent in range is a
    float as it stands. *)
Lemma binary_round_aux_normal (s : bool) (m : positive) (e : Z) :
  Z.pos (digits2_pos m) = prec ->
  3 - emax - prec <= e <= emax - prec ->
  binary_round_aux prec emax s (Z.pos m) e loc_Exact = S754_finite s m e.
Proof.
  intros Hd He.
  unfold binary_round_aux, shr_fexp. cbn [Zdigits2 shr_record_of_loc].
  rewrite Hd.
  replace (fexp prec emax (prec + e) - e) with 0
    by (unfold fexp, emin; lia).
  cbn [shr shr_m shr_r shr_s loc_of_shr_record round_nearest_even Zdigits2
       shr_record_of_loc].
  rewrite Hd.
  replace (fexp prec emax (prec + e) - e) with 0
    by (unfold fexp, emin; lia).
  cbn [shr shr_m].
  destruct (Z.leb_spec e (emax - prec)); [ reflexivity | lia ].
Qed.

(** An integer of fewer than [prec] digits, scaled by a power of two, is
    represented exactly. *)
Lemma binary_round_small (s : bool) (q : positive) (e0 : Z) :
  Z.pos (digits2_pos q) < prec ->
  3 - emax - prec <= Z.pos (digits2_pos q) + e0 - prec <= emax - prec ->
  binary_round prec emax s q e0
  = S754_finite s (Pos.iter xO q (Z.to_pos (prec - Z.pos (digits2_pos q))))
                (Z.pos (digits2_pos q) + e0 - prec).
Proof.
  intros HL He.
  unfold binary_round.
  replace (fexp prec emax (Z.pos (digits2_pos q) + e0))
    with (Z.pos (digits2_pos q) + e0 - prec)
    by (unfold fexp, emin; lia).
  unfold shl_align.
  replace (Z.pos (digits2_pos q) + e0 - prec - e0)
    with (Z.neg (Z.to_pos (prec - Z.pos (digits2_pos q))))
    by (rewrite <- Pos2Z.opp_pos, Z2Pos.id; lia).
  apply binary_round_aux_normal; [ | exact He ].
  rewrite digits2_pos_iter_xO, Z2Pos.id; lia.
Qed.

(** Dividing a normal float by a power of two only moves its exponent. *)
Lemma SFdiv_pow2 (s : bool) (m my : positive) (e ey : Z) :
  Z.pos (digits2_pos m) = prec ->
  Z.pos (digits2_pos my) = prec ->
  Z.pos my = 2 ^ (prec - 1) ->
  3 - emax - prec < e - (ey + prec - 1) <= emax - prec ->
  SFdiv prec emax (S754_finite s m e) (S754_finite false my ey)
  = S754_finite s m (e - (ey + prec - 1)).
Proof.
  intros Hd Hdy Hmy He.
  cbn [SFdiv]. unfold SFdiv_core_binary. cbn [Zdigits2].
  rewrite Hd, Hdy.
  replace (prec + e - (prec + ey)) with (e - ey) by lia.
  replace (fexp prec emax (e - ey)) with (e - ey - prec)
    by (unfold fexp, emin; lia).
  rewrite (Z.min_l (e - ey - prec) (e - ey)) by lia.
  replace (e - ey - (e - ey - prec)) with prec by lia.
  assert (Hdiv : Z.div_eucl (Z.shiftl (Z.pos m) prec) (Z.pos my)
                 = (Z.pos m~0, 0)).
  { assert (Ha : Z.shiftl (Z.pos m) prec = Z.pos m~0 * Z.pos my).
    { rewrite Z.shiftl_mul_pow2 by lia. rewrite Hmy.
      replace prec with (Z.succ (prec - 1)) at 1 by lia.
      rewrite Z.pow_succ_r by lia. lia. }
    pose proof (Z.div_eucl_eq (Z.shiftl (Z.pos m) prec) (Z.pos my)) as Heq.
    pose proof (Z.mod_pos_bound (Z.shiftl (Z.pos m) prec) (Z.pos my)) as Hb.
    unfold Z.modulo in Hb.
    destruct (Z.div_eucl (Z.shiftl (Z.pos m) prec) (Z.pos my)) as [q r].
    specialize (Heq ltac:(lia)). specialize (Hb ltac:(lia)).
    rewrite Ha in Heq.
    assert (q = Z.pos m~0) by nia.
    subst q. f_equal. lia. }
  destruct prec as [|pp|pp] eqn:Ep; try lia.
  rewrite Hdiv.
  assert (Hev : Z.even (Z.pos my) = true).
  { rewrite Hmy. apply Z.even_pow. lia. }
  unfold new_location. rewrite Hev. unfold new_location_even.
  cbn [Z.eqb].
  rewrite xorb_false_r.
  unfold binary_round_aux, shr_fexp.
  cbn [Zdigits2 digits2_pos shr_record_of_loc].
  rewrite Pos2Z.inj_succ, Hd.
  replace (fexp (Z.pos pp) emax (Z.succ (Z.pos pp) + (e - ey - Z.pos pp))
           - (e - ey - Z.pos pp)) with 1
    by (unfold fexp, emin; lia).
  cbn [shr iter_pos shr_1 shr_m shr_r shr_s loc_of_shr_record
       round_nearest_even orb Zdigits2 shr_record_of_loc].
  rewrite Hd.
  replace (fexp (Z.pos pp) emax (Z.pos pp + (e - ey - Z.pos pp + 1))
           - (e - ey - Z.pos pp + 1)) with 0
    by (unfold fexp, emin; lia).
  cbn [shr shr_m].
  replace (e - ey - Z.pos pp + 1) with (e - (ey + Z.pos pp - 1)) by lia.
  destruct (Z.leb_spec (e - (ey + Z.pos pp - 1)) (emax - Z.pos pp));
    [ reflexivity | lia ].
Qed.

End ExactScaling.

Section ScaledAcceleration.
Variable fi : float_impl.

Lemma float_impl_bounds : 16 < prec fi /\ prec fi + 16 < emax fi.
Proof. destruct fi; cbn; lia. Qed.

Lemma SCALE_ACCEL_normal :
  exists my,
    AsincroAccel.SCALE_ACCEL fi = S754_finite false my (15 - prec fi)
    /\ ExternalAccel.SCALE_ACCEL fi = S754_finite false my (15 - prec fi)
    /\ Z.pos (digits2_pos my) = prec fi
    /\ Z.pos my = 2 ^ (prec fi - 1).
Proof. destruct fi; eexists; repeat apply conj; vm_compute; reflexivity. Qed.

Lemma int16_digits (q : positive) :
  Z.pos q <= 32768 -> Z.pos (digits2_pos q) <= 16.
Proof.
  intros Hq. pose proof (digits2_pos_lower q) as Hl.
  destruct (Z.le_gt_cases (Z.pos (digits2_pos q)) 16) as [H | H];
    [ exact H | exfalso ].
  assert (2 ^ 16 <= 2 ^ (Z.pos (digits2_pos q) - 1))
    by (apply Z.pow_le_mono_r; lia).
  change (2 ^ 16) with 65536 in *. lia.
Qed.

Lemma fmake_int16 (s : bool) (q : positive) (e0 : Z) :
  Z.pos q <= 32768 -> -16 <= e0 <= 0 ->
  binary_round (prec fi) (emax fi) s q e0
  = S754_finite s
      (Pos.iter xO q (Z.to_pos (prec fi - Z.pos (digits2_pos q))))
      (Z.pos (digits2_pos q) + e0 - prec fi).
Proof.
  intros Hq He0.
  pose proof float_impl_bounds as [Hp He].
  pose proof (int16_digits q Hq) as HL.
  apply binary_round_small; lia.
Qed.

Lemma scale_int16 (s : bool) (q : positive) :
  Z.pos q <= 32768 ->
  SFdiv (prec fi) (emax fi) (binary_round (prec fi) (emax fi) s q 0)
        (AsincroAccel.SCALE_ACCEL fi)
  = binary_round (prec fi) (emax fi) s q (-14).
Proof.
  intros Hq.
  pose proof float_impl_bounds as [Hp He].
  pose proof (int16_digits q Hq) as HL.
  destruct SCALE_ACCEL_normal as (my & Es & _ & Hdy & Hmy).
  rewrite Es, !fmake_int16 by lia.
  rewrite (SFdiv_pow2 (prec fi) (emax fi)); try lia; try assumption.
  - f_equal. lia.
  - rewrite digits2_pos_iter_xO, Z2Pos.id; lia.
Qed.

Lemma int15_digits (q : positive) :
  Z.pos q <= 32767 -> Z.pos (digits2_pos q) <= 15.
Proof.
  intros Hq. pose proof (digits2_pos_lower q) as Hl.
  destruct (Z.le_gt_cases (Z.pos (digits2_pos q)) 15) as [H | H];
    [ exact H | exfalso ].
  assert (2 ^ 15 <= 2 ^ (Z.pos (digits2_pos q) - 1))
    by (apply Z.pow_le_mono_r; lia).
  change (2 ^ 15) with 32768 in *. lia.
Qed.

Lemma scaled_int16_exact (v : Z) :
  -32768 <= v <= 32768 ->
  truediv fi (PyInt v) (AsincroAccel.SCALE_ACCEL fi) = fmake fi v (-14).
Proof.
  intros Hv. unfold truediv, to_float, fmake, binary_normalize.
  destruct v as [|q|q].
  - destruct fi; vm_compute; reflexivity.
  - apply scale_int16. lia.
  - apply scale_int16. lia.
Qed.

Lemma within_2g_small (s : bool) (m : positive) (e : Z) :
  e < 2 - prec fi -> within_2g fi (S754_finite s m e) = true.
Proof.
  intros He. unfold within_2g.
  assert (E2 : exists m2, fmake fi 2 0 = S754_finite false m2 (2 - prec fi)
                          /\ fmake fi (-2) 0 = S754_finite true m2 (2 - prec fi))
    by (destruct fi; eexists; split; vm_compute; reflexivity).
  destruct E2 as (m2 & -> & ->).
  unfold SFleb. destruct s; cbn [SFcompare].
  - rewrite (proj2 (Z.compare_gt_iff (2 - prec fi) e)) by lia. reflexivity.
  - rewrite (proj2 (Z.compare_lt_iff e (2 - prec fi))) by lia. reflexivity.
Qed.

Lemma int16_scale_within_2g (v : Z) :
  -32768 <= v <= 32767 ->
  within_2g fi (truediv fi (PyInt v) (AsincroAccel.SCALE_ACCEL fi)) = true.
Proof.
  intros Hv. rewrite scaled_int16_exact by lia.
  pose proof float_impl_bounds as [Hp He].
  destruct (Z.eq_dec v (-32768)) as [-> | Hne];
    [ destruct fi; vm_compute; reflexivity | ].
  unfold fmake, binary_normalize.
  destruct v as [|q|q].
  - destruct fi; vm_compute; reflexivity.
  - pose proof (int15_digits q ltac:(lia)).
    rewrite fmake_int16 by lia. apply within_2g_small. lia.
  - pose proof (int15_digits q ltac:(lia)).
    rewrite fmake_int16 by lia. apply within_2g_small. lia.
Qed.

End ScaledAcceleration.

Section Readings.

Ltac unfold_driver :=
  unfold AsincroAccel.externalAcelerometers, ExternalAccel.externalAcelerometers,
    AsincroAccel.get_all_data_scaled, ExternalAccel.get_all_data_scaled,
    try_except_OSError, bind, i2c_readfrom_mem_into, read_buffer, print, ret.

(** X3: a successful read of the MPU-6050 returns three accelerations
    within [-2.0, 2.0] g, whatever 14 bytes the sensor sent: the range the
    fusion step divides the external sample by.  Both copies of the driver. *)
Theorem external_read_within_2g (fi : float_impl) (dev : MPU6050) (w : World)
    (frame : list Z) (rest : list (answer (list Z))) :
  i2c_hw w = inr frame :: rest ->
  Forall is_byte frame ->
  Forall is_byte (mpu_buffer w) ->
  exists (d : ExtDict.t) (ax ay az : spec_float),
    snd (AsincroAccel.externalAcelerometers fi (Some dev) w) = inr (Some d)
    /\ snd (ExternalAccel.externalAcelerometers fi (Some dev) w) = inr (Some d)
    /\ ExtDict.accel_x d = PyFloat ax
    /\ ExtDict.accel_y d = PyFloat ay
    /\ ExtDict.accel_z d = PyFloat az
    /\ within_2g fi ax = true
    /\ within_2g fi ay = true
    /\ within_2g fi az = true.
Proof.
  intros Hw Hframe Hbuf.
  pose proof (fill_buffer_bytes _ _ Hbuf Hframe) as Hb.
  unfold_driver. rewrite Hw. cbv beta iota.
  cbn [mpu_buffer]. unfold unpack_7h.
  do 4 eexists.
  repeat apply conj; try reflexivity;
    cbn [ExtDict.accel_x ExtDict.accel_y ExtDict.accel_z];
    apply int16_scale_within_2g; apply unpack_h_range; exact Hb.
Qed.

Lemma external_read_within_2g_witness :
  exists (d : ExtDict.t) (ax ay az : spec_float),
    snd (AsincroAccel.externalAcelerometers FloatSingle
           (Some (mkMPU6050 AsincroAccel.DEFAULT_ADDR)) (world_at_rest 1 0 0))
    = inr (Some d)
    /\ snd (ExternalAccel.externalAcelerometers FloatSingle
              (Some (mkMPU6050 AsincroAccel.DEFAULT_ADDR)) (world_at_rest 1 0 0))
       = inr (Some d)
    /\ ExtDict.accel_x d = PyFloat ax
    /\ ExtDict.accel_y d = PyFloat ay
    /\ ExtDict.accel_z d = PyFloat az
    /\ within_2g FloatSingle ax = true
    /\ within_2g FloatSingle ay = true
    /\ within_2g FloatSingle az = true.
Proof.
  apply (external_read_within_2g FloatSingle
           (mkMPU6050 AsincroAccel.DEFAULT_ADDR) (world_at_rest 1 0 0)
           frame_at_rest []).
  - reflexivity.
  - unfold frame_at_rest, is_byte. repeat constructor; lia.
  - cbn. unfold is_byte. repeat constructor; lia.
Defined.

(** X19: the scaling loses nothing: in either float format the three
    accelerations a successful read returns are the decoded 16-bit words
    times 2^-14 exactly, with no rounding. *)
Theorem external_read_is_exact (fi : float_impl) (dev : MPU6050) (w : World)
    (frame : list Z) (rest : list (answer (list Z))) :
  i2c_hw w = inr frame :: rest ->
  Forall is_byte frame ->
  Forall is_byte (mpu_buffer w) ->
  let buf := fill_buffer (mpu_buffer w) frame in
  exists d : ExtDict.t,
    snd (AsincroAccel.externalAcelerometers fi (Some dev) w) = inr (Some d)
    /\ ExtDict.accel_x d = PyFloat (fmake fi (unpack_h buf 0) (-14))
    /\ ExtDict.accel_y d = PyFloat (fmake fi (unpack_h buf 1) (-14))
    /\ ExtDict.accel_z d = PyFloat (fmake fi (unpack_h buf 2) (-14)).
Proof.
  intros Hw Hframe Hbuf buf.
  pose proof (fill_buffer_bytes _ _ Hbuf Hframe) as Hb. fold buf in Hb.
  pose proof (unpack_h_range buf 0 Hb) as H0.
  pose proof (unpack_h_range buf 1 Hb) as H1.
  pose proof (unpack_h_range buf 2 Hb) as H2.
  unfold_driver. rewrite Hw. cbv beta iota.
  cbn [mpu_buffer]. unfold unpack_7h. fold buf.
  eexists. split; [ reflexivity | ].
  cbn [ExtDict.accel_x ExtDict.accel_y ExtDict.accel_z].
  rewrite !scaled_int16_exact by lia.
  repeat apply conj; reflexivity.
Qed.

Lemma external_read_is_exact_witness :
  let buf := fill_buffer (mpu_buffer (world_at_rest 1 0 0)) frame_at_rest in
  exists d : ExtDict.t,
    snd (AsincroAccel.externalAcelerometers FloatDouble
           (Some (mkMPU6050 AsincroAccel.DEFAULT_ADDR)) (world_at_rest 1 0 0))
    = inr (Some d)
    /\ ExtDict.accel_x d = PyFloat (fmake FloatDouble (unpack_h buf 0) (-14))
    /\ ExtDict.accel_y d = PyFloat (fmake FloatDouble (unpack_h buf 1) (-14))
    /\ ExtDict.accel_z d = PyFloat (fmake FloatDouble (unpack_h buf 2) (-14)).
Proof.
  apply (external_read_is_exact FloatDouble
           (mkMPU6050 AsincroAccel.DEFAULT_ADDR) (world_at_rest 1 0 0)
           frame_at_rest []).
  - reflexivity.
  - unfold frame_at_rest, is_byte. repeat constructor; lia.
  - cbn. unfold is_byte. repeat constructor; lia.
Defined.

(** X4: a read through a present MPU-6050 handle never raises and is
    exactly one I2C transaction, whether the bus answers or fails: the
    next scripted answer is consumed, the clock advances by one I2C latency,
    and the accelerometer, the LED and the latencies are left alone.  Both
    copies of the adapter. *)
Theorem external_read_is_one_transaction (fi : float_impl) (dev : MPU6050)
    (w : World) :
  (exists d w',
      AsincroAccel.externalAcelerometers fi (Some dev) w = (w', inr (Some d))
      /\ i2c_hw w' = tl (i2c_hw w)
      /\ ticks_ms w' = ticks_ms w + i2c_latency w
      /\ accel_hw w' = accel_hw w
      /\ led1 w' = led1 w /\ led_log w' = led_log w
      /\ accel_latency w' = accel_latency w
      /\ i2c_latency w' = i2c_latency w)
  /\ (exists d w',
      ExternalAccel.externalAcelerometers fi (Some dev) w = (w', inr (Some d))
      /\ i2c_hw w' = tl (i2c_hw w)
      /\ ticks_ms w' = ticks_ms w + i2c_latency w
      /\ accel_hw w' = accel_hw w
      /\ led1 w' = led1 w /\ led_log w' = led_log w
      /\ accel_latency w' = accel_latency w
      /\ i2c_latency w' = i2c_latency w).
Proof.
  unfold_driver.
  destruct (i2c_hw w) as [|[msg|frame] rest]; split;
    do 2 eexists; (split; [ reflexivity | repeat apply conj; reflexivity ]).
Qed.

(** X5: the driver and the adapter of asincroAccel.py and those of
    externalAccel.py are interchangeable: on every world and every handle
    they return the same value and leave the same hardware state; only
    what they print differs. *)
Theorem external_driver_copies_agree (fi : float_impl) (dev : MPU6050)
    (sensor_device : option MPU6050) (w : World) :
  snd (AsincroAccel.get_all_data_scaled fi dev w)
  = snd (ExternalAccel.get_all_data_scaled fi dev w)
  /\ hardware (fst (AsincroAccel.get_all_data_scaled fi dev w))
     = hardware (fst (ExternalAccel.get_all_data_scaled fi dev w))
  /\ snd (AsincroAccel.externalAcelerometers fi sensor_device w)
     = snd (ExternalAccel.externalAcelerometers fi sensor_device w)
  /\ hardware (fst (AsincroAccel.externalAcelerometers fi sensor_device w))
     = hardware (fst (ExternalAccel.externalAcelerometers fi sensor_device w)).
Proof.
  unfold_driver.
  destruct sensor_device as [d|].
  - destruct (i2c_hw w) as [|[msg|frame] rest]; repeat apply conj; reflexivity.
  - repeat apply conj; try reflexivity;
      destruct (i2c_hw w) as [|[msg|frame] rest]; reflexivity.
Qed.

Lemma fill_buffer_whole (buf frame : list Z) :
  List.length frame = List.length buf -> fill_buffer buf frame = frame.
Proof.
  intros H. unfold fill_buffer.
  rewrite H, skipn_all, app_nil_r, <- H. apply firstn_all.
Qed.

(** X6: the driver reuses one 14-byte buffer for every read, and nothing
    of an earlier read shows in a later one: two worlds whose next answer
    is the same full frame give the same reading whatever their buffers
    held before. *)
Theorem reading_depends_on_frame_only (fi : float_impl) (dev : MPU6050)
    (w1 w2 : World) (frame : list Z) (rest1 rest2 : list (answer (list Z))) :
  i2c_hw w1 = inr frame :: rest1 ->
  i2c_hw w2 = inr frame :: rest2 ->
  List.length frame = 14%nat ->
  List.length (mpu_buffer w1) = 14%nat ->
  List.length (mpu_buffer w2) = 14%nat ->
  snd (AsincroAccel.get_all_data_scaled fi dev w1)
  = snd (AsincroAccel.get_all_data_scaled fi dev w2)
  /\ mpu_buffer (fst (AsincroAccel.get_all_data_scaled fi dev w1)) = frame.
Proof.
  intros H1 H2 Hf Hb1 Hb2.
  unfold_driver. rewrite H1, H2. cbv beta iota. cbn [mpu_buffer].
  rewrite !fill_buffer_whole by congruence.
  split; reflexivity.
Qed.

Lemma reading_depends_on_frame_only_witness :
  snd (AsincroAccel.get_all_data_scaled FloatSingle
         (mkMPU6050 AsincroAccel.DEFAULT_ADDR) (world_at_rest 1 0 0))
  = snd (AsincroAccel.get_all_data_scaled FloatSingle
           (mkMPU6050 AsincroAccel.DEFAULT_ADDR)
           (fst (i2c_readfrom_mem_into 0 0 (world_at_rest 2 3 4))))
  /\ mpu_buffer (fst (AsincroAccel.get_all_data_scaled FloatSingle
                        (mkMPU6050 AsincroAccel.DEFAULT_ADDR)
                        (world_at_rest 1 0 0)))
     = frame_at_rest.
Proof.
  apply (reading_depends_on_frame_only FloatSingle
           (mkMPU6050 AsincroAccel.DEFAULT_ADDR) (world_at_rest 1 0 0)
           (fst (i2c_readfrom_mem_into 0 0 (world_at_rest 2 3 4)))
           frame_at_rest [] []); reflexivity.
Defined.

End Readings.

(** ** Edge cases of the fusion step *)

Section FusionEdges.
Import AsincroAccel.
Variable fi : float_impl.

Lemma max_minus_one_one :
  Py.max (fmake fi (-1) 0) (fmake fi 1 0) = fmake fi 1 0.
Proof. destruct fi; vm_compute; reflexivity. Qed.

Lemma average_and_clamp_nan_l (b : spec_float) :
  average_and_clamp fi S754_nan b = fmake fi 1 0.
Proof.
  unfold average_and_clamp, fadd, fdiv. cbn [SFadd SFdiv].
  unfold Py.min at 1. cbn [SFltb SFcompare]. apply max_minus_one_one.
Qed.

Lemma average_and_clamp_nan_r (a : spec_float) :
  average_and_clamp fi a S754_nan = fmake fi 1 0.
Proof.
  unfold average_and_clamp, fadd, fdiv.
  replace (SFadd (prec fi) (emax fi) a S754_nan) with S754_nan
    by (destruct a; reflexivity).
  cbn [SFdiv]. unfold Py.min at 1. cbn [SFltb SFcompare].
  apply max_minus_one_one.
Qed.

(** X7: a NaN reading is not reported as NaN: if the X value of either
    sample is NaN, the fused X is 1.0, whatever the other sample holds
    (Python's [min(1.0, nan)] is 1.0). *)
Theorem nan_axis_fuses_to_one (int_data : IntDict.t) (ext_data : ExtDict.t)
    (y z gx gy gz t : num) (u : string) :
  norm_x (normalize_average_clamp fi
            (IntDict.mk (PyFloat S754_nan) y z u) ext_data) = fmake fi 1 0
  /\ norm_x (normalize_average_clamp fi int_data
               (ExtDict.mk (PyFloat S754_nan) y z gx gy gz t)) = fmake fi 1 0.
Proof.
  unfold normalize_average_clamp; cbn [norm_x IntDict.accel_x ExtDict.accel_x].
  split.
  - unfold truediv at 1. cbn [to_float SFdiv].
    apply average_and_clamp_nan_l.
  - unfold truediv at 2. cbn [to_float SFdiv].
    apply average_and_clamp_nan_r.
Qed.

Lemma SFcompare_antisym (a b : spec_float) :
  SFcompare b a = option_map CompOpp (SFcompare a b).
Proof.
  destruct a as [sa | sa | | sa ma ea], b as [sb | sb | | sb mb eb];
    try destruct sa; try destruct sb; try reflexivity; cbn [SFcompare option_map].
  - rewrite (Z.compare_antisym ea eb).
    destruct (ea ?= eb); cbn [CompOpp]; try reflexivity.
    f_equal. rewrite CompOpp_involutive.
    apply (Pos.compare_cont_antisym mb ma Eq).
  - rewrite (Z.compare_antisym ea eb).
    destruct (ea ?= eb); cbn [CompOpp]; try reflexivity.
    f_equal. symmetry. apply (Pos.compare_cont_antisym ma mb Eq).
Qed.

Lemma SFleb_not_SFltb (a b : spec_float) :
  SFleb a b = true -> SFltb b a = false.
Proof.
  unfold SFleb, SFltb. rewrite (SFcompare_antisym a b).
  destruct (SFcompare a b) as [[ | | ]|]; cbn; congruence.
Qed.

Lemma below_minus_one_below_one (v : spec_float) :
  SFleb v (fmake fi (-1) 0) = true -> SFltb v (fmake fi 1 0) = true.
Proof.
  assert (Hm : exists m e, fmake fi (-1) 0 = S754_finite true m e)
    by (destruct fi; do 2 eexists; vm_compute; reflexivity).
  assert (Ho : exists m e, fmake fi 1 0 = S754_finite false m e)
    by (destruct fi; do 2 eexists; vm_compute; reflexivity).
  destruct Hm as (m1 & e1 & ->). destruct Ho as (m2 & e2 & ->).
  unfold SFleb, SFltb.
  destruct v as [s | s | | s m e]; try destruct s; cbn [SFcompare];
    congruence.
Qed.

(** X8: the clamp saturates and is otherwise exact: an average of at least
    1.0 is reported as 1.0, one of at most -1.0 as -1.0, and one strictly
    between the two bounds unchanged. *)
Theorem average_and_clamp_saturates (a b : spec_float) :
  let avg := fdiv fi (fadd fi a b) (fmake fi 2 0) in
  (SFleb (fmake fi 1 0) avg = true ->
   average_and_clamp fi a b = fmake fi 1 0)
  /\ (SFleb avg (fmake fi (-1) 0) = true ->
      average_and_clamp fi a b = fmake fi (-1) 0)
  /\ (SFltb (fmake fi (-1) 0) avg = true -> SFltb avg (fmake fi 1 0) = true ->
      average_and_clamp fi a b = avg).
Proof.
  intros avg. unfold average_and_clamp. fold avg.
  unfold Py.max, Py.min.
  repeat apply conj.
  - intros H. rewrite (SFleb_not_SFltb _ _ H).
    apply max_minus_one_one.
  - intros H. rewrite (below_minus_one_below_one _ H).
    rewrite (SFleb_not_SFltb _ _ H). reflexivity.
  - intros Hlo Hhi. rewrite Hhi, Hlo. reflexivity.
Qed.

Lemma SFadd_comm (p e : Z) (x y : spec_float) : SFadd p e x y = SFadd p e y x.
Proof.
  destruct x as [sx | sx | | sx mx ex], y as [sy | sy | | sy my ey];
    try destruct sx; try destruct sy; try reflexivity;
    cbn [SFadd]; rewrite (Z.min_comm ex ey), Z.add_comm; reflexivity.
Qed.

(** X9: with an internal sample in g-force the two sensors are treated
    alike: exchanging the axis values of the internal and of the external
    sample leaves the fused vector unchanged. *)
Theorem fusion_symmetric_in_g (x y z x' y' z' gx gy gz t : num) :
  normalize_average_clamp fi (IntDict.mk x y z "g-force")
    (ExtDict.mk x' y' z' gx gy gz t)
  = normalize_average_clamp fi (IntDict.mk x' y' z' "g-force")
      (ExtDict.mk x y z gx gy gz t).
Proof.
  unfold normalize_average_clamp, average_and_clamp, fadd.
  cbn [IntDict.units IntDict.accel_x IntDict.accel_y IntDict.accel_z
       ExtDict.accel_x ExtDict.accel_y ExtDict.accel_z String.eqb Ascii.eqb
       Bool.eqb].
  rewrite (SFadd_comm _ _ (truediv fi x _)), (SFadd_comm _ _ (truediv fi y _)),
    (SFadd_comm _ _ (truediv fi z _)).
  reflexivity.
Qed.

End FusionEdges.

Lemma average_and_clamp_saturates_witness :
  AsincroAccel.average_and_clamp FloatSingle (fmake FloatSingle 3 0) (fmake FloatSingle 1 0)
  = fmake FloatSingle 1 0
  /\ AsincroAccel.average_and_clamp FloatSingle (fmake FloatSingle (-3) 0) (fmake FloatSingle (-1) 0)
     = fmake FloatSingle (-1) 0
  /\ AsincroAccel.average_and_clamp FloatSingle (fmake FloatSingle 1 0) (fmake FloatSingle 0 0)
     = fmake FloatSingle 1 (-1).
Proof.
  repeat apply conj.
  - apply (average_and_clamp_saturates FloatSingle
             (fmake FloatSingle 3 0) (fmake FloatSingle 1 0)).
    vm_compute. reflexivity.
  - apply (average_and_clamp_saturates FloatSingle
             (fmake FloatSingle (-3) 0) (fmake FloatSingle (-1) 0)).
    vm_compute. reflexivity.
  - apply (average_and_clamp_saturates FloatSingle
             (fmake FloatSingle 1 0) (fmake FloatSingle 0 0));
      vm_compute; reflexivity.
Defined.

(** ** One fusion cycle, end to end *)

Section Cycle.
Import AsincroAccel.

Ltac unfold_cycle :=
  unfold main_loop_body, get_averaged_accel_data_async, joined_reads,
    get_internal_data_async, get_external_data_async,
    getInternalAccelerometerData, externalAcelerometers,
    get_all_data_scaled, try_except_OSError, bind, accel_read,
    i2c_readfrom_mem_into, read_buffer, fuse, print, ret, call, sleep_ms.

(** X10: a cycle whose two reads are answered returns the fusion of
    exactly those two readings: the internal triple, tagged by the method
    that read it, against the accelerations decoded from the frame.  The
    only suspensions on the way are the two [sleep_ms(0)] of the wrappers;
    one answer of each device is consumed, the clock advances by one
    latency of each, and nothing is printed. *)
Theorem cycle_fuses_both_readings (fi : float_impl)
    (has_filtered_method : bool) (dev : MPU6050) (w : World)
    (x y z : num) (frame : list Z)
    (rest_a : list (answer (num * num * num)))
    (rest_i : list (answer (list Z))) :
  accel_hw w = inr (x, y, z) :: rest_a ->
  i2c_hw w = inr frame :: rest_i ->
  let buf := fill_buffer (mpu_buffer w) frame in
  let g i := PyFloat (truediv fi (PyInt (unpack_h buf i)) (SCALE_ACCEL fi)) in
  let u := tag_of_filter has_filtered_method in
  exists w',
    drive (get_averaged_accel_data_async fi (Some AccelObj)
             has_filtered_method (Some dev)) [] w
    = (w', [0; 0],
       inr (Some (mkFused (spec_fused_axis fi u x (g 0%nat))
                          (spec_fused_axis fi u y (g 1%nat))
                          (spec_fused_axis fi u z (g 2%nat)))))
    /\ accel_hw w' = rest_a
    /\ i2c_hw w' = rest_i
    /\ ticks_ms w' = ticks_ms w + accel_latency w + i2c_latency w
    /\ stdout w' = stdout w
    /\ led1 w' = led1 w.
Proof.
  intros Ha Hi buf g u.
  unfold_cycle.
  destruct has_filtered_method; cbn; rewrite Ha; cbn; rewrite Hi; cbn;
    eexists; (split; [ reflexivity | repeat apply conj; reflexivity ]).
Qed.

Lemma cycle_fuses_both_readings_witness :
  let w := world_at_rest 1 3 4 in
  let buf := fill_buffer (mpu_buffer w) frame_at_rest in
  let g i := PyFloat (truediv FloatSingle (PyInt (unpack_h buf i))
                        (SCALE_ACCEL FloatSingle)) in
  let u := tag_of_filter false in
  exists w',
    drive (get_averaged_accel_data_async FloatSingle (Some AccelObj) false
             (Some (mkMPU6050 DEFAULT_ADDR))) [] w
    = (w', [0; 0],
       inr (Some (mkFused (spec_fused_axis FloatSingle u (PyInt 0) (g 0%nat))
                          (spec_fused_axis FloatSingle u (PyInt 0) (g 1%nat))
                          (spec_fused_axis FloatSingle u (PyInt 16) (g 2%nat)))))
    /\ accel_hw w' = []
    /\ i2c_hw w' = []
    /\ ticks_ms w' = ticks_ms w + accel_latency w + i2c_latency w
    /\ stdout w' = stdout w
    /\ led1 w' = led1 w.
Proof.
  apply (cycle_fuses_both_readings FloatSingle false (mkMPU6050 DEFAULT_ADDR)
           (world_at_rest 1 3 4) (PyInt 0) (PyInt 0) (PyInt 16)
           frame_at_rest [] []); reflexivity.
Defined.

(** X11: when the internal read raises OSError the cycle does not raise:
    it returns None, no [sleep_ms(0)] of a wrapper is passed, the answer of
    the accelerometer is consumed, and the last line printed is "Sensor
    read error: " followed by the message of the exception. *)
Theorem cycle_reports_internal_fault (fi : float_impl)
    (has_filtered_method : bool) (sensor_device : option MPU6050)
    (others : list (World -> World)) (w : World)
    (msg : string) (rest_a : list (answer (num * num * num))) :
  accel_hw w = inl msg :: rest_a ->
  exists w',
    drive (get_averaged_accel_data_async fi (Some AccelObj)
             has_filtered_method sensor_device) others w
    = (w', [], inr None)
    /\ accel_hw w' = rest_a
    /\ hd EmptyString (stdout w') = ("Sensor read error: " ++ msg)%string
    /\ led1 w' = led1 w.
Proof.
  intros Ha.
  unfold_cycle.
  destruct has_filtered_method, sensor_device as [dev|]; cbn; rewrite Ha; cbn;
    try (destruct (i2c_hw w) as [|[m|f] r]; cbn);
    eexists; (split; [ reflexivity | repeat apply conj; reflexivity ]).
Qed.

Lemma cycle_reports_internal_fault_witness :
  exists w',
    drive (get_averaged_accel_data_async FloatSingle (Some AccelObj) false
             (Some (mkMPU6050 DEFAULT_ADDR))) []
          (mkWorld [inl "[Errno 5] EIO"%string] [] 1 1 (repeat 0 14) false [] [] 0)
    = (w', [], inr None)
    /\ accel_hw w' = []
    /\ hd EmptyString (stdout w') = ("Sensor read error: " ++ "[Errno 5] EIO")%string
    /\ led1 w' = false.
Proof.
  apply (cycle_reports_internal_fault FloatSingle false
           (Some (mkMPU6050 DEFAULT_ADDR)) []
           (mkWorld [inl "[Errno 5] EIO"%string] [] 1 1 (repeat 0 14) false [] [] 0)
           "[Errno 5] EIO" []).
  reflexivity.
Defined.

Lemma internal_read_outcome (accel_obj : option Accel) (filt : bool) (w : World) :
  exists w1 r,
    getInternalAccelerometerData accel_obj filt w = (w1, r)
    /\ ((exists data, r = inr data) \/ (exists msg, r = inl (OSError msg))).
Proof.
  unfold getInternalAccelerometerData, bind, accel_read, ret.
  destruct accel_obj as [a|]; [ destruct filt | ]; cbv beta;
    try destruct (accel_hw w) as [|[msg|[[x y] z]] rest];
    do 2 eexists; (split; [ reflexivity | ]);
    first [ left; eexists; reflexivity | right; eexists; reflexivity ].
Qed.

Lemma external_read_never_raises (fi : float_impl) (dev : option MPU6050)
    (w : World) :
  exists w1 data, externalAcelerometers fi dev w = (w1, inr data).
Proof.
  unfold externalAcelerometers, get_all_data_scaled, try_except_OSError, bind,
    i2c_readfrom_mem_into, read_buffer, print, ret.
  destruct dev as [dev|]; cbv beta;
    try destruct (i2c_hw w) as [|[msg|frame] rest];
    do 2 eexists; reflexivity.
Qed.

Lemma fuse_never_raises (fi : float_impl) i e (w : World) :
  exists w1 v, fuse fi i e w = (w1, inr v).
Proof. destruct i, e; do 2 eexists; reflexivity. Qed.

(** X12: a turn of the main loop cannot end the loop: whatever the
    handles, the sensors and the other tasks do, it raises nothing, passes
    the two [sleep_ms(0)] of the wrappers or none of them, and ends in its
    sleep of 200 ms. *)
Theorem main_loop_turn_never_raises (fi : float_impl)
    (internal_accel : option Accel) (has_filtered_method : bool)
    (external_mpu : option MPU6050)
    (others : list (World -> World)) (w : World) :
  exists w' ss,
    drive (main_loop_body fi internal_accel has_filtered_method external_mpu)
          others w
    = (w', ss ++ [200], inr tt)
    /\ (ss = [] \/ ss = [0; 0]).
Proof.
  destruct (internal_read_outcome internal_accel has_filtered_method w)
    as (w1 & r & Ef & Hr).
  pose proof (external_read_never_raises fi external_mpu) as Hg.
  pose proof (fuse_never_raises fi) as HF.
  unfold main_loop_body, get_averaged_accel_data_async, joined_reads,
    get_internal_data_async, get_external_data_async.
  revert Ef Hg HF.
  generalize (getInternalAccelerometerData internal_accel has_filtered_method)
    as f, (externalAcelerometers fi external_mpu) as g, (fuse fi) as F.
  intros f g F Ef Hg HF.
  unfold call, sleep_ms. cbn. rewrite Ef.
  destruct Hr as [[data ->] | [msg ->]]; cbn.
  - destruct (Hg (hd (fun w0 => w0) others w1)) as (w3 & x & Eg). rewrite Eg. cbn.
    destruct (HF data x (hd (fun w0 => w0) (tl others) w3)) as (w5 & v & EF).
    rewrite EF. destruct v as [v|]; cbn;
      do 2 eexists; (split; [ | right; reflexivity ]); reflexivity.
  - destruct (Hg w1) as (w3 & x & Eg). rewrite Eg. cbn.
    do 2 eexists. split; [ | left; reflexivity ]. reflexivity.
Qed.

Ltac prefix_of l t :=
  lazymatch l with
  | t => constr:(@nil string)
  | ?a :: ?r => let p := prefix_of r t in constr:(a :: p)
  end.

(** X13: with both handles present, as [main] has them, the branch for a
    missing sample is dead: whatever the sensors answer, the lines a turn of
    the main loop prints never include "Error reading one or more
    sensors.". *)
Theorem main_never_reports_missing_sample (fi : float_impl)
    (has_filtered_method : bool) (dev : MPU6050) (w : World) :
  exists new : list string,
    stdout (fst (fst (drive (main_loop_body fi (Some AccelObj)
                               has_filtered_method (Some dev)) [] w)))
    = new ++ stdout w
    /\ ~ In "Error reading one or more sensors."%string new.
Proof.
  unfold_cycle.
  destruct has_filtered_method; cbn;
    destruct (accel_hw w) as [|[m|[[x y] z]] ra]; cbn;
    destruct (i2c_hw w) as [|[m'|f] ri]; cbn;
    lazymatch goal with
    | |- exists new, ?l = new ++ ?t /\ _ =>
        let p := prefix_of l t in
        exists p; split; [ reflexivity | ]
    end;
    intros H;
    repeat (destruct H as [H | H]; [ discriminate H | ]);
    exact H.
Qed.

End Cycle.

(** ** The duty cycles of the motor *)

Section MotorHistory.
Import MotorContol.

Lemma one_driven_stop : one_driven (0, 0).
Proof. unfold one_driven; cbn; lia. Qed.

Lemma motorControl_history (speed direction : Z) (m : Motor) :
  logged m ->
  duty_history (pwm_writes (motorControl speed direction m))
  = (pwm_in1 (motorControl speed direction m),
     pwm_in2 (motorControl speed direction m))
    :: ((if direction =? 1 then clamp_speed speed else 0), pwm_in2 m)
    :: duty_history (pwm_writes m).
Proof.
  unfold logged. intros Hm. unfold motorControl.
  destruct (direction =? 1); [ | destruct (direction =? -1) ];
    cbn [pwm_writes pwm_in1 pwm_in2 pwm_in1_pulse_percent
         pwm_in2_pulse_percent duty_history hd];
    rewrite Hm; reflexivity.
Qed.

Lemma exec_keeps_log (s : stmt) (pc : nat) (m : Motor) :
  nth_error loop_body pc = Some s ->
  (pwm_in1 m, pwm_in2 m) = expected_duty pc ->
  logged m ->
  Forall one_driven (duty_history (pwm_writes m)) ->
  (pwm_in1 (exec s m), pwm_in2 (exec s m)) = expected_duty (S pc)
  /\ logged (exec s m)
  /\ Forall one_driven (duty_history (pwm_writes (exec s m))).
Proof.
  intros Hs Hd Hl Hf.
  destruct pc as [|[|[|[|[|[|[|[|[|[|[|[|pc]]]]]]]]]]]];
    cbn in Hs; try (destruct pc; discriminate Hs); injection Hs as <-;
    cbn [exec];
    try (repeat apply conj; assumption);
    injection Hd as H1 H2;
    (repeat apply conj;
     [ reflexivity
     | unfold logged; rewrite (motorControl_history _ _ m Hl); reflexivity
     | rewrite (motorControl_history _ _ m Hl);
       repeat constructor; cbn; try rewrite H2; try lia; exact Hf ]).
Qed.

Lemma run_loop_keeps_log (n : nat) :
  forall pc m,
    (pc <= 12)%nat ->
    (pwm_in1 m, pwm_in2 m) = expected_duty pc ->
    logged m ->
    Forall one_driven (duty_history (pwm_writes m)) ->
    logged (run_loop n pc m)
    /\ Forall one_driven (duty_history (pwm_writes (run_loop n pc m))).
Proof.
  induction n as [|n IH]; intros pc m Hpc Hd Hl Hf; cbn [run_loop].
  - split; assumption.
  - change (List.length loop_body) with 12%nat.
    destruct (Nat.ltb_spec pc 12) as [Hlt | Hge].
    + destruct (nth_error loop_body pc) as [s|] eqn:Hs.
      * rewrite (nth_error_nth _ _ _ Hs).
        destruct (exec_keeps_log s pc m Hs Hd Hl Hf) as (Hd' & Hl' & Hf').
        apply IH; [ lia | assumption.. ].
      * apply nth_error_None in Hs. cbn in Hs. lia.
    + assert (pc = 12%nat) by lia. subst pc.
      destruct (exec_keeps_log (Print "Running Forward (60%)") 0 m eq_refl Hd Hl Hf)
        as (Hd' & Hl' & Hf').
      apply IH; [ lia | assumption.. ].
Qed.

(** X14: throughout the demo loop of motorContol.py, after any number of
    statements and at every single PWM write made so far (between the two
    writes of a call as well), at most one channel is driven and both duty
    cycles are within 0..100: every change of direction goes through a
    stop. *)
Theorem demo_loop_never_drives_both (n : nat) :
  let m := run_loop n 0 boot in
  Forall one_driven (duty_history (pwm_writes m))
  /\ hd (0, 0) (duty_history (pwm_writes m)) = (pwm_in1 m, pwm_in2 m).
Proof.
  intros m. subst m.
  assert (H : logged (run_loop n 0 boot)
              /\ Forall one_driven (duty_history (pwm_writes (run_loop n 0 boot)))).
  { apply run_loop_keeps_log.
    - lia.
    - reflexivity.
    - reflexivity.
    - cbn. repeat constructor; cbn; lia. }
  destruct H as [Hl Hf]. split; [ exact Hf | exact Hl ].
Qed.

(** X15: motorControl writes channel 1 before channel 2.  Called with
    direction 1 and a positive speed while channel 2 is driving (forward
    straight after reverse), it passes through a state with both channels
    driven; with any other direction its first write clears channel 1, so
    neither of the two states it passes through drives channel 1. *)
Theorem forward_after_reverse_drives_both (speed : Z) (m : Motor) :
  logged m ->
  0 < speed ->
  pwm_in2 m <> 0 ->
  (exists s, In s (duty_history (pwm_writes (motorControl speed 1 m)))
             /\ fst s <> 0 /\ snd s <> 0)
  /\ (forall direction s,
         direction <> 1 ->
         In s (firstn 2 (duty_history
                           (pwm_writes (motorControl speed direction m)))) ->
         fst s = 0).
Proof.
  intros Hl Hs H2. split.
  - exists (clamp_speed speed, pwm_in2 m).
    rewrite (motorControl_history speed 1 m Hl). cbn [Z.eqb Pos.eqb].
    split; [ right; left; reflexivity | ].
    cbn [fst snd]. split; [ | exact H2 ].
    pose proof (clamp_speed_max_min speed). lia.
  - intros direction s Hd Hin.
    rewrite (motorControl_history speed direction m Hl) in Hin.
    destruct (Z.eqb_spec direction 1) as [-> | _]; [ contradiction | ].
    cbn [firstn] in Hin.
    destruct Hin as [<- | [<- | []]]; [ | reflexivity ].
    unfold motorControl.
    destruct (Z.eqb_spec direction 1) as [-> | _]; [ contradiction | ].
    destruct (direction =? -1); reflexivity.
Qed.

Lemma forward_after_reverse_drives_both_witness :
  (exists s, In s (duty_history
                     (pwm_writes (motorControl 60 1 (motorControl 90 (-1) boot))))
             /\ fst s <> 0 /\ snd s <> 0)
  /\ (forall direction s,
         direction <> 1 ->
         In s (firstn 2 (duty_history
                           (pwm_writes (motorControl 60 direction
                                          (motorControl 90 (-1) boot))))) ->
         fst s = 0).
Proof.
  apply (forward_after_reverse_drives_both 60 (motorControl 90 (-1) boot)).
  - reflexivity.
  - lia.
  - cbn. lia.
Defined.

End MotorHistory.

(** ** Bring-up and the blinker *)

Section Main.
Import AsincroAccel AsincroMain Scheduler.

Ltac run_init Hs :=
  cbv - [existsb Z.eqb DEFAULT_ADDR Z.add String.append];
  rewrite ?Hs;
  cbv - [existsb Z.eqb DEFAULT_ADDR Z.add String.append].

Lemma main_init_fails (hw : InitHw) (w : World) :
  (exists msg, accel_probe hw = inl msg)
  \/ existsb (Z.eqb DEFAULT_ADDR) (i2c_scan hw) = false
  \/ (exists msg, wake_write hw = inl msg) ->
  exists w' msg,
    main_init hw w = (w', inr None)
    /\ accel_hw w' = accel_hw w
    /\ i2c_hw w' = i2c_hw w
    /\ led1 w' = led1 w
    /\ led_log w' = led_log w
    /\ hd EmptyString (stdout w')
       = ("FATAL ERROR during initialization: " ++ msg)%string.
Proof.
  intros H. destruct hw as [[m1 | has] scan [m3 | ack]];
    cbn [accel_probe i2c_scan wake_write] in H;
    destruct (existsb (Z.eqb DEFAULT_ADDR) scan) eqn:Hs;
    try (destruct H as [[msg H] | [H | [msg H]]]; discriminate H);
    run_init Hs;
    do 2 eexists; repeat apply conj; reflexivity.
Qed.

Lemma main_init_cases (hw : InitHw) (w : World) :
  (exists w', main_init hw w = (w', inr None))
  \/ (exists has w',
         accel_probe hw = inr has
         /\ main_init hw w
            = (w', inr (Some (AccelObj, has, mkMPU6050 DEFAULT_ADDR)))
         /\ mpu_buffer w' = repeat 0 14
         /\ ticks_ms w' = ticks_ms w + i2c_latency w + 100
         /\ accel_hw w' = accel_hw w
         /\ i2c_hw w' = i2c_hw w
         /\ led_log w' = led_log w).
Proof.
  destruct hw as [[m1 | has] scan [m3 | ack]];
    destruct (existsb (Z.eqb DEFAULT_ADDR) scan) eqn:Hs;
    run_init Hs;
    first [ left; eexists; reflexivity
          | right; do 2 eexists; repeat apply conj; reflexivity ].
Qed.
(** X16: when bring-up fails (pyb.Accel() raises, 0x68 is not among the
    scanned addresses, or the write that wakes the MPU-6050 raises), [main]
    returns before it creates the blinker or enters the loop: no task is
    left to the scheduler, no sensor answer is consumed, the LED is not
    touched, and the last line printed is the FATAL ERROR line. *)
Theorem fatal_init_starts_nothing (fi : float_impl) (hw : InitHw) (w : World) :
  (exists msg, accel_probe hw = inl msg)
  \/ existsb (Z.eqb DEFAULT_ADDR) (i2c_scan hw) = false
  \/ (exists msg, wake_write hw = inl msg) ->
  let s := main fi hw w in
  tasks s = []
  /\ accel_hw (world s) = accel_hw w
  /\ i2c_hw (world s) = i2c_hw w
  /\ led1 (world s) = led1 w
  /\ led_log (world s) = led_log w
  /\ exists msg,
       hd EmptyString (stdout (world s))
       = ("FATAL ERROR during initialization: " ++ msg)%string.
Proof.
  intros H s. subst s.
  destruct (main_init_fails hw w H) as (w' & msg & E & Ha & Hi & Hl & Hg & Ho).
  unfold main. rewrite E. cbn [tasks world].
  repeat apply conj; try assumption; try reflexivity.
  exists msg. exact Ho.
Qed.

Lemma fatal_init_starts_nothing_witness :
  let s := main FloatSingle (mkInitHw (inr false) [0x1E; 0x4C] (inr tt))
             (world_at_rest 1 0 0) in
  tasks s = []
  /\ accel_hw (world s) = accel_hw (world_at_rest 1 0 0)
  /\ i2c_hw (world s) = i2c_hw (world_at_rest 1 0 0)
  /\ led1 (world s) = led1 (world_at_rest 1 0 0)
  /\ led_log (world s) = led_log (world_at_rest 1 0 0)
  /\ exists msg,
       hd EmptyString (stdout (world s))
       = ("FATAL ERROR during initialization: " ++ msg)%string.
Proof.
  apply (fatal_init_starts_nothing FloatSingle
           (mkInitHw (inr false) [0x1E; 0x4C] (inr tt)) (world_at_rest 1 0 0)).
  right. left. reflexivity.
Defined.

(** X17: [main] never runs its loop with an absent handle: either it has
    returned and left no task, or both handles are present, the fusion loop
    and the blinker are the two tasks, in this order, the driver's buffer
    is 14 zero bytes, and the clock has advanced by the wake-up write and
    the 100 ms the driver sleeps after it. *)
Theorem main_starts_with_both_handles (fi : float_impl) (hw : InitHw)
    (w : World) :
  let s := main fi hw w in
  tasks s = []
  \/ (exists has_filtered_method,
         accel_probe hw = inr has_filtered_method
         /\ tasks s = main_tasks fi (Some AccelObj) has_filtered_method
                        (Some (mkMPU6050 DEFAULT_ADDR))
         /\ mpu_buffer (world s) = repeat 0 14
         /\ ticks_ms (world s) = ticks_ms w + i2c_latency w + 100
         /\ accel_hw (world s) = accel_hw w
         /\ i2c_hw (world s) = i2c_hw w
         /\ led_log (world s) = led_log w).
Proof.
  intros s. subst s. unfold main.
  destruct (main_init_cases hw w)
    as [(w' & E) | (has & w' & Hp & E & Hb & Ht & Ha & Hi & Hl)];
    rewrite E; cbn [tasks world]; [ left; reflexivity | ].
  right. exists has.
  repeat apply conj; try assumption; try reflexivity;
    cbv [fst bind print]; cbn [mpu_buffer ticks_ms accel_hw i2c_hw led_log];
    assumption.
Qed.



End Main.
